(** * Project MANTA: the simulation-and-render loop

    A shallow embedding of the flight core of the game:
    [PhysicsEngine] (the motion integrator), [RenderEngine] (the WebGL2
    pipeline) and the parts of [GameEngine] that start a mission.

    Conventions of the embedding.
    - A JavaScript [number] is a real number of [R]: the arithmetic of the
      source is read exactly, without the rounding of IEEE doubles and
      without the [Float32Array] storage of gl-matrix and of the matrices.
      [NaN] and the infinities have no counterpart. The properties give
      closed forms and bounds of what the code computes, which the
      program meets up to the rounding of its arithmetic; where the code
      would divide by zero the properties take the divisor positive.
    - A method that mutates [this] (and the objects passed to it) is a
      function from the old state to the new one.
    - The clocks the code samples ([Date.now()], [performance.now()]) are
      arguments of the functions that read them.
    - A plain object used with optional keys and object spread
      ([ControlInput]) is a finite map from property names to values. *)

From Stdlib Require Import Reals Lra.
From stdpp Require Import gmap strings list.

Open Scope R_scope.

(** ** types/GameTypes.ts *)

Module Vector3.
Record t := mk { x : R; y : R; z : R }.
End Vector3.

Module Quaternion.
Record t := mk { x : R; y : R; z : R; w : R }.
End Quaternion.

Record Transform := mkTransform {
  position : Vector3.t;
  rotation : Quaternion.t;
  scale : Vector3.t
}.

Record Propulsion := mkPropulsion {
  plasmaRate : R;
  coilTemp : R;
  antiGravity : R
}.

Module Cloaking.
Record t := mk { active : bool; integrity : R; heat : R }.
End Cloaking.

Module Sensors.
Record t := mk { active : bool; range : R; quantum : bool }.
End Sensors.

Record SystemState := mkSystemState {
  propulsion : Propulsion;
  cloaking : Cloaking.t;
  sensors : Sensors.t
}.

Inductive MissionType := atmospheric | deep_space | hybrid.

Module Mission.
Record t := mk {
  id : string;
  name : string;
  type : MissionType;
  difficulty : R;
  description : string;
  objectives : list string;
  environment : string;
  duration : R
}.
End Mission.

(** ** gl-matrix

    The functions of the library (release 3, default angle order) that
    the engine calls, with the [out] argument left out: each returns what
    the library writes to [out]. A [quat] is the array [[x, y, z, w]], a
    [vec3] the array [[x, y, z]]. *)

Module quat.

Definition t : Type := R * R * R * R.

Definition create : t := (0, 0, 0, 1).

Definition set (x y z w : R) : t := (x, y, z, w).

(** [quat.fromEuler(out, x, y, z)]: the angles are in degrees. *)
Definition fromEuler (x y z : R) : t :=
  let halfToRad := 0.5 * PI / 180 in
  let x := x * halfToRad in
  let y := y * halfToRad in
  let z := z * halfToRad in
  let sx := sin x in
  let cx := cos x in
  let sy := sin y in
  let cy := cos y in
  let sz := sin z in
  let cz := cos z in
  (sx * cy * cz - cx * sy * sz,
   cx * sy * cz + sx * cy * sz,
   cx * cy * sz - sx * sy * cz,
   cx * cy * cz + sx * sy * sz).

Definition multiply (a b : t) : t :=
  let '(ax, ay, az, aw) := a in
  let '(bx, b_y, bz, bw) := b in
  (ax * bw + aw * bx + ay * bz - az * b_y,
   ay * bw + aw * b_y + az * bx - ax * bz,
   az * bw + aw * bz + ax * b_y - ay * bx,
   aw * bw - ax * bx - ay * b_y - az * bz).

(** [quat.normalize] is [vec4.normalize]: a zero quaternion stays zero. *)
Definition normalize (a : t) : t :=
  let '(x, y, z, w) := a in
  let len := x * x + y * y + z * z + w * w in
  let len := if Rlt_dec 0 len then 1 / sqrt len else len in
  (x * len, y * len, z * len, w * len).

Definition squaredLength (a : t) : R :=
  let '(x, y, z, w) := a in x * x + y * y + z * z + w * w.

End quat.

Module vec3.

Definition t : Type := R * R * R.

Definition create : t := (0, 0, 0).

Definition set (x y z : R) : t := (x, y, z).

Definition transformQuat (a : t) (q : quat.t) : t :=
  let '(qx, qy, qz, qw) := q in
  let '(x, y, z) := a in
  let uvx := qy * z - qz * y in
  let uvy := qz * x - qx * z in
  let uvz := qx * y - qy * x in
  let uuvx := qy * uvz - qz * uvy in
  let uuvy := qz * uvx - qx * uvz in
  let uuvz := qx * uvy - qy * uvx in
  let w2 := qw * 2 in
  let uvx := uvx * w2 in
  let uvy := uvy * w2 in
  let uvz := uvz * w2 in
  let uuvx := uuvx * 2 in
  let uuvy := uuvy * 2 in
  let uuvz := uuvz * 2 in
  (x + uvx + uuvx, y + uvy + uuvy, z + uvz + uuvz).

End vec3.

(** ** engine/PhysicsEngine.ts *)

(** The value of an optional numeric property that is present in an
    object: a number, or an explicit [undefined]. *)
Inductive value := undefined | number (r : R).

(** [interface ControlInput { pitch?; yaw?; roll?; thrust? }]: the keys
    that are present, with their values. *)
Abbreviation ControlInput := (gmap string value).

(** Reading a property: an absent key reads as [undefined]. *)
Definition prop (o : ControlInput) (k : string) : value :=
  default undefined (o !! k).

(** [{ ...a, ...b }]: the keys of [b] win, the other keys of [a] stay. *)
Definition spread (a b : ControlInput) : ControlInput := b ∪ a.

(** The truth value of [if (v)] for a number or [undefined]. *)
Definition truthy (v : value) : bool :=
  match v with
  | undefined => false
  | number r => if Req_dec_T r 0 then false else true
  end.

Record PhysicsEngine := mkPhysicsEngine {
  velocity : Vector3.t;
  angularVelocity : Vector3.t;
  lastControlInput : ControlInput
}.

(** [new PhysicsEngine()] *)
Definition PhysicsEngine_new : PhysicsEngine :=
  {| velocity := Vector3.mk 0 0 0;
     angularVelocity := Vector3.mk 0 0 0;
     lastControlInput := ∅ |}.

Definition PLASMA_EFFICIENCY : R := 0.85.
Definition MAGNETIC_FLUX_CONSTANT : R := 432.7.
Definition GRAVITY_CONSTANT : R := 9.81.

Definition getForwardVector (transform : Transform) : Vector3.t :=
  let quat_array :=
    (Quaternion.x (rotation transform), Quaternion.y (rotation transform),
     Quaternion.z (rotation transform), Quaternion.w (rotation transform)) in
  let forward := vec3.create in
  let forward := vec3.set 0 0 (-1) in
  let forward := vec3.transformQuat forward quat_array in
  let '(f0, f1, f2) := forward in
  Vector3.mk f0 f1 f2.

(** The modulation factor read from the wall clock; [now] is [Date.now()]. *)
Definition coilResonance (now : R) : R :=
  sin (now * 0.001 * MAGNETIC_FLUX_CONSTANT) * 0.1 + 0.9.

Definition updatePropulsion (deltaTime : R) (propulsion : Propulsion)
    (transform : Transform) (now : R) (this : PhysicsEngine) : PhysicsEngine :=
  let plasmaEfficiency := plasmaRate propulsion * PLASMA_EFFICIENCY in
  let coilResonance := coilResonance now in
  let antiGravityForce := antiGravity propulsion * coilResonance in
  let gravitationalForce := - GRAVITY_CONSTANT * (1.0 - antiGravityForce) in
  let v := velocity this in
  let v := Vector3.mk (Vector3.x v)
                      (Vector3.y v + gravitationalForce * deltaTime)
                      (Vector3.z v) in
  let v :=
    match prop (lastControlInput this) "thrust" with
    | number thrust =>
        if truthy (number thrust) then
          let thrustMagnitude := thrust * plasmaEfficiency * 50.0 in
          let forward := getForwardVector transform in
          Vector3.mk
            (Vector3.x v + Vector3.x forward * thrustMagnitude * deltaTime)
            (Vector3.y v + Vector3.y forward * thrustMagnitude * deltaTime)
            (Vector3.z v + Vector3.z forward * thrustMagnitude * deltaTime)
        else v
    | undefined => v
    end in
  let heatGeneration := plasmaRate propulsion * coilTemp propulsion * deltaTime in
  {| velocity := v;
     angularVelocity := angularVelocity this;
     lastControlInput := lastControlInput this |}.

(** The two coefficients are locals of the method: nothing reads them. *)
Definition updateCloakingPhysics (cloaking : Cloaking.t) (transform : Transform)
    (this : PhysicsEngine) : PhysicsEngine * Transform :=
  if Cloaking.active cloaking then
    let cloakingMassReduction := Cloaking.integrity cloaking * 0.3 in
    let powerDrain := 0.1 * (1.0 - Cloaking.integrity cloaking) in
    (this, transform)
  else (this, transform).

Definition update (deltaTime : R) (systemStates : SystemState)
    (transform : Transform) (now : R) (this : PhysicsEngine)
    : PhysicsEngine * Transform :=
  let this := updatePropulsion deltaTime (propulsion systemStates) transform now this in
  let '(this, transform) :=
    updateCloakingPhysics (cloaking systemStates) transform this in
  (* Integrate velocity *)
  let p := position transform in
  let v := velocity this in
  let p := Vector3.mk (Vector3.x p + Vector3.x v * deltaTime)
                      (Vector3.y p + Vector3.y v * deltaTime)
                      (Vector3.z p + Vector3.z v * deltaTime) in
  (* Integrate angular velocity *)
  let r := rotation transform in
  let rotationQuat := quat.create in
  let rotationQuat :=
    quat.set (Quaternion.x r) (Quaternion.y r) (Quaternion.z r) (Quaternion.w r) in
  let av := angularVelocity this in
  let angularQuatStep := quat.create in
  let angularQuatStep :=
    quat.fromEuler (Vector3.x av * deltaTime * 57.2958)
                   (Vector3.y av * deltaTime * 57.2958)
                   (Vector3.z av * deltaTime * 57.2958) in
  let rotationQuat := quat.multiply rotationQuat angularQuatStep in
  let rotationQuat := quat.normalize rotationQuat in
  let '(r0, r1, r2, r3) := rotationQuat in
  let transform :=
    {| position := p;
       rotation := Quaternion.mk r0 r1 r2 r3;
       scale := scale transform |} in
  (* Apply damping *)
  let v := Vector3.mk (Vector3.x v * 0.98) (Vector3.y v * 0.98) (Vector3.z v * 0.98) in
  let av := Vector3.mk (Vector3.x av * 0.95) (Vector3.y av * 0.95) (Vector3.z av * 0.95) in
  ({| velocity := v; angularVelocity := av;
      lastControlInput := lastControlInput this |}, transform).

(** [a += input.k] under the guard [input.k !== undefined]. *)
Definition addIfDefined (a : R) (v : value) : R :=
  match v with
  | number r => a + r
  | undefined => a
  end.

Definition applyControlInput (input : ControlInput) (this : PhysicsEngine)
    : PhysicsEngine :=
  let lastControlInput := spread (lastControlInput this) input in
  let av := angularVelocity this in
  let av := Vector3.mk (addIfDefined (Vector3.x av) (prop input "pitch"))
                       (Vector3.y av) (Vector3.z av) in
  let av := Vector3.mk (Vector3.x av)
                       (addIfDefined (Vector3.y av) (prop input "yaw"))
                       (Vector3.z av) in
  let av := Vector3.mk (Vector3.x av) (Vector3.y av)
                       (addIfDefined (Vector3.z av) (prop input "roll")) in
  {| velocity := velocity this;
     angularVelocity := av;
     lastControlInput := lastControlInput |}.



(** ** engine/RenderEngine.ts *)

(** *** The WebGL2 context

    The part of the state of a [WebGL2RenderingContext] that the render
    engine reads or writes. The context is shared by the game engine and
    the render engine, so it is a state of its own that the methods of
    both take and return. *)

Definition WebGLProgram := nat.
Definition WebGLBuffer := nat.
Definition WebGLUniformLocation := nat.

Inductive BlendFactor := ZERO | ONE | SRC_ALPHA | ONE_MINUS_SRC_ALPHA.

Inductive Capability := BLEND | DEPTH_TEST | CULL_FACE.

Inductive BufferTarget := ARRAY_BUFFER | ELEMENT_ARRAY_BUFFER.

Inductive UniformValue :=
| Uniform1f (v : R)
| Uniform1i (v : Z)
| UniformMatrix4fv (transpose : bool) (m : list R).

Record VertexAttrib := mkVertexAttrib {
  attribSize : Z;
  attribNormalized : bool;
  attribStride : Z;
  attribOffset : Z;
  attribBuffer : option WebGLBuffer
}.

(** One [drawElements(TRIANGLES, count, UNSIGNED_SHORT, offset)], with the
    blending state it is drawn under. *)
Record DrawCall := mkDrawCall {
  drawCount : Z;
  drawOffset : Z;
  drawBlend : bool;
  drawBlendFunc : BlendFactor * BlendFactor
}.

Record WebGL2RenderingContext := mkGL {
  canvasWidth : R;                       (* gl.canvas.width *)
  canvasHeight : R;                      (* gl.canvas.height *)
  glViewport : R * R * R * R;
  glBlend : bool;                        (* isEnabled(BLEND) *)
  glDepthTest : bool;
  glCullFace : bool;
  glBlendFunc : BlendFactor * BlendFactor;
  glProgram : option WebGLProgram;
  glUniforms : gmap WebGLUniformLocation UniformValue;
  glArrayBuffer : option WebGLBuffer;
  glElementArrayBuffer : option WebGLBuffer;
  glAttribs : gmap nat VertexAttrib;
  glAttribsEnabled : gset nat;
  glDrawn : list DrawCall
}.

Module gl.

Definition viewport (x y width height : R) (g : WebGL2RenderingContext)
    : WebGL2RenderingContext :=
  mkGL (canvasWidth g) (canvasHeight g) (x, y, width, height)
       (glBlend g) (glDepthTest g) (glCullFace g) (glBlendFunc g) (glProgram g)
       (glUniforms g) (glArrayBuffer g) (glElementArrayBuffer g)
       (glAttribs g) (glAttribsEnabled g) (glDrawn g).

Definition setCapability (cap : Capability) (on : bool)
    (g : WebGL2RenderingContext) : WebGL2RenderingContext :=
  mkGL (canvasWidth g) (canvasHeight g) (glViewport g)
       (match cap with BLEND => on | _ => glBlend g end)
       (match cap with DEPTH_TEST => on | _ => glDepthTest g end)
       (match cap with CULL_FACE => on | _ => glCullFace g end)
       (glBlendFunc g) (glProgram g)
       (glUniforms g) (glArrayBuffer g) (glElementArrayBuffer g)
       (glAttribs g) (glAttribsEnabled g) (glDrawn g).

Definition enable (cap : Capability) := setCapability cap true.

Definition disable (cap : Capability) := setCapability cap false.

Definition blendFunc (sfactor dfactor : BlendFactor)
    (g : WebGL2RenderingContext) : WebGL2RenderingContext :=
  mkGL (canvasWidth g) (canvasHeight g) (glViewport g)
       (glBlend g) (glDepthTest g) (glCullFace g) (sfactor, dfactor) (glProgram g)
       (glUniforms g) (glArrayBuffer g) (glElementArrayBuffer g)
       (glAttribs g) (glAttribsEnabled g) (glDrawn g).

Definition useProgram (program : option WebGLProgram)
    (g : WebGL2RenderingContext) : WebGL2RenderingContext :=
  mkGL (canvasWidth g) (canvasHeight g) (glViewport g)
       (glBlend g) (glDepthTest g) (glCullFace g) (glBlendFunc g) program
       (glUniforms g) (glArrayBuffer g) (glElementArrayBuffer g)
       (glAttribs g) (glAttribsEnabled g) (glDrawn g).

(** A [null] location is ignored. *)
Definition uniform (location : option WebGLUniformLocation) (v : UniformValue)
    (g : WebGL2RenderingContext) : WebGL2RenderingContext :=
  match location with
  | None => g
  | Some l =>
      mkGL (canvasWidth g) (canvasHeight g) (glViewport g)
           (glBlend g) (glDepthTest g) (glCullFace g) (glBlendFunc g) (glProgram g)
           (<[l := v]> (glUniforms g)) (glArrayBuffer g) (glElementArrayBuffer g)
           (glAttribs g) (glAttribsEnabled g) (glDrawn g)
  end.

Definition uniformMatrix4fv location (transpose : bool) (m : list R) :=
  uniform location (UniformMatrix4fv transpose m).

Definition uniform1f location (v : R) := uniform location (Uniform1f v).

Definition uniform1i location (v : Z) := uniform location (Uniform1i v).

Definition bindBuffer (target : BufferTarget) (buffer : option WebGLBuffer)
    (g : WebGL2RenderingContext) : WebGL2RenderingContext :=
  mkGL (canvasWidth g) (canvasHeight g) (glViewport g)
       (glBlend g) (glDepthTest g) (glCullFace g) (glBlendFunc g) (glProgram g)
       (glUniforms g)
       (match target with ARRAY_BUFFER => buffer | _ => glArrayBuffer g end)
       (match target with
        | ELEMENT_ARRAY_BUFFER => buffer
        | _ => glElementArrayBuffer g
        end)
       (glAttribs g) (glAttribsEnabled g) (glDrawn g).

Definition vertexAttribPointer (index : nat) (size : Z) (normalized : bool)
    (stride offset : Z) (g : WebGL2RenderingContext) : WebGL2RenderingContext :=
  mkGL (canvasWidth g) (canvasHeight g) (glViewport g)
       (glBlend g) (glDepthTest g) (glCullFace g) (glBlendFunc g) (glProgram g)
       (glUniforms g) (glArrayBuffer g) (glElementArrayBuffer g)
       (<[index := mkVertexAttrib size normalized stride offset (glArrayBuffer g)]>
          (glAttribs g))
       (glAttribsEnabled g) (glDrawn g).

Definition enableVertexAttribArray (index : nat)
    (g : WebGL2RenderingContext) : WebGL2RenderingContext :=
  mkGL (canvasWidth g) (canvasHeight g) (glViewport g)
       (glBlend g) (glDepthTest g) (glCullFace g) (glBlendFunc g) (glProgram g)
       (glUniforms g) (glArrayBuffer g) (glElementArrayBuffer g)
       (glAttribs g) ({[index]} ∪ glAttribsEnabled g) (glDrawn g).

Definition drawElements (count offset : Z)
    (g : WebGL2RenderingContext) : WebGL2RenderingContext :=
  mkGL (canvasWidth g) (canvasHeight g) (glViewport g)
       (glBlend g) (glDepthTest g) (glCullFace g) (glBlendFunc g) (glProgram g)
       (glUniforms g) (glArrayBuffer g) (glElementArrayBuffer g)
       (glAttribs g) (glAttribsEnabled g)
       (glDrawn g ++ [mkDrawCall count offset (glBlend g) (glBlendFunc g)]).

End gl.

(** *** The render engine *)

Record RenderEngine := mkRenderEngine {
  shaderProgram : option WebGLProgram;
  vertexBuffer : option WebGLBuffer;
  indexBuffer : option WebGLBuffer;
  viewMatrix : list R;
  projectionMatrix : list R;
  uniformLocations : gmap string (option WebGLUniformLocation)
}.

(** [new Float32Array(n)] and [a.fill(v)]; [a[i] = v] is [<[i:=v]> a],
    which like a typed array ignores an index out of range. *)
Definition Float32Array (n : nat) : list R := replicate n 0.

Definition fill (a : list R) (v : R) : list R := replicate (length a) v.

(** [new RenderEngine(gl)] *)
Definition RenderEngine_new : RenderEngine :=
  {| shaderProgram := None;
     vertexBuffer := None;
     indexBuffer := None;
     viewMatrix := Float32Array 16;
     projectionMatrix := Float32Array 16;
     uniformLocations := ∅ |}.

(** [this.uniformLocations.k]: a missing key reads as no location. *)
Definition uniformLocation (this : RenderEngine) (k : string)
    : option WebGLUniformLocation :=
  default None (uniformLocations this !! k).

Definition BYTES_PER_ELEMENT : Z := 4.

Definition updateProjectionMatrix (this : RenderEngine)
    (g : WebGL2RenderingContext) : RenderEngine :=
  let aspect := canvasWidth g / canvasHeight g in
  let fov := PI / 4 in
  let near := 0.1 in
  let far := 1000.0 in
  let f := tan (PI * 0.5 - 0.5 * fov) in
  let rangeInv := 1.0 / (near - far) in
  let m := fill (projectionMatrix this) 0 in
  let m := <[0%nat := f / aspect]> m in
  let m := <[5%nat := f]> m in
  let m := <[10%nat := (near + far) * rangeInv]> m in
  let m := <[11%nat := -1]> m in
  let m := <[14%nat := near * far * rangeInv * 2]> m in
  {| shaderProgram := shaderProgram this;
     vertexBuffer := vertexBuffer this;
     indexBuffer := indexBuffer this;
     viewMatrix := viewMatrix this;
     projectionMatrix := m;
     uniformLocations := uniformLocations this |}.

Definition updateViewport (width height : R) (this : RenderEngine)
    (g : WebGL2RenderingContext) : RenderEngine * WebGL2RenderingContext :=
  let g := gl.viewport 0 0 width height g in
  (updateProjectionMatrix this g, g).

(** [perfNow] is [performance.now()]. *)
Definition render (deltaTime : R) (craftTransform : Transform)
    (systemStates : SystemState) (perfNow : R) (this : RenderEngine)
    (g : WebGL2RenderingContext) : RenderEngine * WebGL2RenderingContext :=
  match shaderProgram this with
  | None => (this, g)
  | Some program =>
      let g := gl.useProgram (Some program) g in
      (* Update view matrix (simple camera) *)
      let vm := fill (viewMatrix this) 0 in
      let vm := <[0%nat := 1]> vm in
      let vm := <[5%nat := 1]> vm in
      let vm := <[10%nat := 1]> vm in
      let vm := <[15%nat := 1]> vm in
      let vm := <[14%nat := -5]> vm in
      let this :=
        {| shaderProgram := shaderProgram this;
           vertexBuffer := vertexBuffer this;
           indexBuffer := indexBuffer this;
           viewMatrix := vm;
           projectionMatrix := projectionMatrix this;
           uniformLocations := uniformLocations this |} in
      (* Create model matrix (identity for now) *)
      let modelMatrix := Float32Array 16 in
      let modelMatrix := fill modelMatrix 0 in
      let modelMatrix := <[0%nat := 1]> modelMatrix in
      let modelMatrix := <[5%nat := 1]> modelMatrix in
      let modelMatrix := <[10%nat := 1]> modelMatrix in
      let modelMatrix := <[15%nat := 1]> modelMatrix in
      (* Set uniforms *)
      let g := gl.uniformMatrix4fv (uniformLocation this "uModelMatrix") false modelMatrix g in
      let g := gl.uniformMatrix4fv (uniformLocation this "uViewMatrix") false (viewMatrix this) g in
      let g := gl.uniformMatrix4fv (uniformLocation this "uProjectionMatrix") false
                 (projectionMatrix this) g in
      let g := gl.uniform1f (uniformLocation this "uTime") (perfNow * 0.001) g in
      let g := gl.uniform1i (uniformLocation this "uCloakingActive")
                 (if Cloaking.active (cloaking systemStates) then 1%Z else 0%Z) g in
      let g := gl.uniform1f (uniformLocation this "uCloakingIntegrity")
                 (Cloaking.integrity (cloaking systemStates)) g in
      let g := gl.uniform1f (uniformLocation this "uPlasmaIntensity")
                 (plasmaRate (propulsion systemStates)) g in
      (* Bind vertex data *)
      let g := gl.bindBuffer ARRAY_BUFFER (vertexBuffer this) g in
      let g := gl.bindBuffer ELEMENT_ARRAY_BUFFER (indexBuffer this) g in
      (* Set vertex attributes *)
      let stride := (8 * BYTES_PER_ELEMENT)%Z in
      let g := gl.vertexAttribPointer 0 3 false stride 0 g in
      let g := gl.enableVertexAttribArray 0 g in
      let g := gl.vertexAttribPointer 1 3 false stride (3 * BYTES_PER_ELEMENT) g in
      let g := gl.enableVertexAttribArray 1 g in
      let g := gl.vertexAttribPointer 2 2 false stride (6 * BYTES_PER_ELEMENT) g in
      let g := gl.enableVertexAttribArray 2 g in
      (* Enable blending for cloaking effects *)
      let g :=
        if Cloaking.active (cloaking systemStates) then
          let g := gl.enable BLEND g in
          gl.blendFunc SRC_ALPHA ONE_MINUS_SRC_ALPHA g
        else gl.disable BLEND g in
      (* Draw the geometry *)
      let g := gl.drawElements 3 0 g in
      (this, g)
  end.

(** [loadEnvironment] only writes a line to the console. *)
Definition loadEnvironment (environment : string) (console : list string)
    : list string :=
  console ++ [("Loading environment: " +:+ environment)%string].

(** ** engine/AudioEngine.ts *)

Definition MissionType_to_string (t : MissionType) : string :=
  match t with
  | atmospheric => "atmospheric"
  | deep_space => "deep-space"
  | hybrid => "hybrid"
  end.

(** [playMissionAudio] only writes a line to the console. *)
Definition playMissionAudio (missionType : string) (console : list string)
    : list string :=
  console ++ [("Playing mission audio for: " +:+ missionType)%string].

(** ** engine/GameEngine.ts *)

(** The fields of the engine that mission start, the physics step and the
    render step read or write, and the lines written to the console. The
    canvas element, the audio engine and the input manager hold browser
    objects only. *)
Record GameEngine := mkGameEngine {
  gl_context : option WebGL2RenderingContext;
  physicsEngine : PhysicsEngine;
  renderEngine : option RenderEngine;
  lastTime : R;
  deltaTime : R;
  isRunning : bool;
  craftTransform : Transform;
  currentMission : option Mission.t;
  systemStates : SystemState;
  console : list string
}.

(** [new GameEngine(canvas)] *)
Definition GameEngine_new : GameEngine :=
  {| gl_context := None;
     physicsEngine := PhysicsEngine_new;
     renderEngine := None;
     lastTime := 0;
     deltaTime := 0;
     isRunning := false;
     craftTransform :=
       {| position := Vector3.mk 0 100 0;
          rotation := Quaternion.mk 0 0 0 1;
          scale := Vector3.mk 1 1 1 |};
     currentMission := None;
     systemStates :=
       {| propulsion := mkPropulsion 0.5 0.3 0.7;
          cloaking := Cloaking.mk false 1.0 0;
          sensors := Sensors.mk true 1000 false |};
     console := [] |}.

Definition missions : list Mission.t :=
  [ Mission.mk "urban-recon-01" "Urban Reconnaissance Alpha" atmospheric 1
      "Conduct stealth surveillance over metropolitan area."
      ["Maintain cloak integrity"; "Scan designated targets"; "Avoid radar detection"]
      "urban-night" 300;
    Mission.mk "lunar-survey-01" "Lunar Anomaly Survey" deep_space 3
      "Investigate quantum signatures detected on lunar surface."
      ["Navigate to coordinates"; "Deploy sensor probes"; "Analyze quantum data"]
      "lunar-surface" 600 ]%string.

(** [missions.find(m => m.id === id) || null] *)
Definition getMissionById (id : string) : option Mission.t :=
  List.find (fun m => String.eqb (Mission.id m) id) missions.

Definition startMission (missionId : string) (this : GameEngine) : GameEngine :=
  let currentMission := getMissionById missionId in
  match currentMission with
  | Some mission =>
      let console :=
        console this ++ [("Starting mission: " +:+ Mission.name mission)%string] in
      let console :=
        match renderEngine this with
        | Some _ => loadEnvironment (Mission.environment mission) console
        | None => console
        end in
      let console :=
        playMissionAudio (MissionType_to_string (Mission.type mission)) console in
      (* Reset craft position *)
      let craftTransform :=
        {| position := Vector3.mk 0 100 0;
           rotation := Quaternion.mk 0 0 0 1;
           scale := scale (craftTransform this) |} in
      {| gl_context := gl_context this;
         physicsEngine := physicsEngine this;
         renderEngine := renderEngine this;
         lastTime := lastTime this;
         deltaTime := deltaTime this;
         isRunning := isRunning this;
         craftTransform := craftTransform;
         currentMission := currentMission;
         systemStates := systemStates this;
         console := console |}
  | None =>
      {| gl_context := gl_context this;
         physicsEngine := physicsEngine this;
         renderEngine := renderEngine this;
         lastTime := lastTime this;
         deltaTime := deltaTime this;
         isRunning := isRunning this;
         craftTransform := craftTransform this;
         currentMission := currentMission;
         systemStates := systemStates this;
         console := console this |}
  end.

(** ** engine/GameEngine.ts: input handlers and the frame *)

(** [String.prototype.toLowerCase], on the ASCII strings that reach the
    engine (key names and [KeyboardEvent.code] values): the letters A-Z
    become a-z, every other character stays. *)
Definition toLowerChar (c : Ascii.ascii) : Ascii.ascii :=
  let n := Ascii.nat_of_ascii c in
  if ((65 <=? n)%nat && (n <=? 90)%nat)%bool
  then Ascii.ascii_of_nat (n + 32)
  else c.

Fixpoint toLowerCase (s : string) : string :=
  match s with
  | EmptyString => EmptyString
  | String c s => String (toLowerChar c) (toLowerCase s)
  end.

(** The object literal [{ pitch, yaw, roll, thrust }] with all four keys. *)
Definition controlInput (pitch yaw roll thrust : R) : ControlInput :=
  {[ "pitch"%string := number pitch;
     "yaw"%string := number yaw;
     "roll"%string := number roll;
     "thrust"%string := number thrust ]}.

(** [this.physicsEngine.applyControlInput(input)] *)
Definition applyInput (input : ControlInput) (this : GameEngine) : GameEngine :=
  {| gl_context := gl_context this;
     physicsEngine := applyControlInput input (physicsEngine this);
     renderEngine := renderEngine this;
     lastTime := lastTime this;
     deltaTime := deltaTime this;
     isRunning := isRunning this;
     craftTransform := craftTransform this;
     currentMission := currentMission this;
     systemStates := systemStates this;
     console := console this |}.

(** The three fields of a [Touch] that the engine reads. *)
Record Touch := mkTouch {
  identifier : Z;
  clientX : R;
  clientY : R
}.

(** [clientWidth] and [clientHeight] are those of the canvas. The two
    divisions are those of the code on a canvas of positive size; on a
    canvas of size 0 the code gets [NaN] or an infinity. *)
Definition handleTouchInput (clientWidth clientHeight : R) (type : string)
    (touches : list Touch) (this : GameEngine) : GameEngine :=
  match touches with
  | [touch] =>
      let normalizedX := (clientX touch / clientWidth) * 2 - 1 in
      let normalizedY := (clientY touch / clientHeight) * 2 - 1 in
      applyInput (controlInput (- normalizedY * 0.02) (normalizedX * 0.02) 0 0.7) this
  | _ => this
  end.

Definition handleKeyInput (key : string) (pressed : bool) (this : GameEngine)
    : GameEngine :=
  let inputStrength := if pressed then 1 else 0 in
  let key := toLowerCase key in
  if String.eqb key "w" then
    applyInput (controlInput (-0.02 * inputStrength) 0 0 0.8) this
  else if String.eqb key "s" then
    applyInput (controlInput (0.02 * inputStrength) 0 0 0.8) this
  else if String.eqb key "a" then
    applyInput (controlInput 0 (-0.02 * inputStrength) 0 0.8) this
  else if String.eqb key "d" then
    applyInput (controlInput 0 (0.02 * inputStrength) 0 0.8) this
  else this.

(** [GameEngine.render()], the frame. [currentTime] is the value of
    [performance.now()] the method reads, [now] the [Date.now()] of the
    physics step and [renderTime] the [performance.now()] of the render
    engine. The audio update writes to audio nodes only, and the clear
    colour and the contents of the buffers that [gl.clearColor] and
    [gl.clear] write are not part of the context state kept here. *)
Definition GameEngine_render (currentTime now renderTime : R) (this : GameEngine)
    : GameEngine :=
  match isRunning this, gl_context this, renderEngine this with
  | true, Some g, Some engine =>
      let deltaTime := (currentTime - lastTime this) / 1000.0 in
      let lastTime := currentTime in
      (* Update physics *)
      let s := update deltaTime (systemStates this) (craftTransform this) now
                 (physicsEngine this) in
      (* Render scene *)
      let r := render deltaTime s.2 (systemStates this) renderTime engine g in
      {| gl_context := Some r.2;
         physicsEngine := s.1;
         renderEngine := Some r.1;
         lastTime := lastTime;
         deltaTime := deltaTime;
         isRunning := isRunning this;
         craftTransform := s.2;
         currentMission := currentMission this;
         systemStates := systemStates this;
         console := console this |}
  | _, _, _ => this
  end.

Definition pause (this : GameEngine) : GameEngine :=
  {| gl_context := gl_context this;
     physicsEngine := physicsEngine this;
     renderEngine := renderEngine this;
     lastTime := lastTime this;
     deltaTime := deltaTime this;
     isRunning := false;
     craftTransform := craftTransform this;
     currentMission := currentMission this;
     systemStates := systemStates this;
     console := console this |}.

(** [perfNow] is [performance.now()]. *)
Definition resume (perfNow : R) (this : GameEngine) : GameEngine :=
  {| gl_context := gl_context this;
     physicsEngine := physicsEngine this;
     renderEngine := renderEngine this;
     lastTime := perfNow;
     deltaTime := deltaTime this;
     isRunning := true;
     craftTransform := craftTransform this;
     currentMission := currentMission this;
     systemStates := systemStates this;
     console := console this |}.

(** ** The class [InputManager], which the engine imports as ./InputManager *)

(** The property names of [Object.prototype], which every object literal
    inherits: [keyMap[key]] finds them when [key] is no key of the
    literal itself. *)
Definition objectPrototypeNames : list string :=
  [ "constructor"; "__defineGetter__"; "__defineSetter__"; "hasOwnProperty";
    "__lookupGetter__"; "__lookupSetter__"; "isPrototypeOf";
    "propertyIsEnumerable"; "toString"; "valueOf"; "__proto__";
    "toLocaleString" ]%string.

(** What [onKey] receives as its key: a string, or the property of
    [Object.prototype] of the given name (a function, or the prototype
    itself under [__proto__]), which is truthy and is no string. *)
Inductive MappedKey :=
| str (name : string)
| inherited (property : string).

(** A call of one of the two callbacks. *)
Inductive Callback :=
| onTouch (type : string) (touches : list Touch)
| onKey (key : MappedKey) (pressed : bool).

(** [activeTouches] is a [Map] from identifiers to touches, kept in the
    order of insertion; [hasOnTouch] and [hasOnKey] say whether the
    callbacks are set. *)
Record InputManager := mkInputManager {
  activeTouches : list (Z * Touch);
  pressedKeys : gset string;
  hasOnTouch : bool;
  hasOnKey : bool
}.

(** [new InputManager(canvas)] *)
Definition InputManager_new : InputManager :=
  {| activeTouches := []; pressedKeys := ∅; hasOnTouch := false; hasOnKey := false |}.

(** [Map.prototype.set]: a key that is present keeps its place. *)
Fixpoint mapSet (k : Z) (v : Touch) (m : list (Z * Touch)) : list (Z * Touch) :=
  match m with
  | [] => [(k, v)]
  | (k', v') :: m => if Z.eqb k' k then (k, v) :: m else (k', v') :: mapSet k v m
  end.

Definition mapDelete (k : Z) (m : list (Z * Touch)) : list (Z * Touch) :=
  List.filter (fun kv => negb (Z.eqb kv.1 k)) m.

Definition mapHas (k : Z) (m : list (Z * Touch)) : bool :=
  List.existsb (fun kv => Z.eqb kv.1 k) m.

(** [Array.from(m.values())] *)
Definition mapValues (m : list (Z * Touch)) : list Touch := List.map snd m.

Definition setActiveTouches (m : list (Z * Touch)) (this : InputManager)
    : InputManager :=
  {| activeTouches := m; pressedKeys := pressedKeys this;
     hasOnTouch := hasOnTouch this; hasOnKey := hasOnKey this |}.

Definition setPressedKeys (s : gset string) (this : InputManager) : InputManager :=
  {| activeTouches := activeTouches this; pressedKeys := s;
     hasOnTouch := hasOnTouch this; hasOnKey := hasOnKey this |}.

Definition triggerTouchEvent (type : string) (touches : list Touch)
    (this : InputManager) : list Callback :=
  if hasOnTouch this then [onTouch type touches] else [].

Definition keyMap : gmap string string :=
  {[ "KeyW" := "w"; "KeyA" := "a"; "KeyS" := "s"; "KeyD" := "d";
     "Space" := " "; "ShiftLeft" := "shift"; "ControlLeft" := "ctrl" ]}%string.

(** [keyMap[key] || key.toLowerCase()]: the lookup finds a key of the
    literal, or else a property inherited from [Object.prototype], or
    else nothing; an empty string would be falsy as nothing is. *)
Definition mappedKey (key : string) : MappedKey :=
  match keyMap !! key with
  | Some EmptyString => str (toLowerCase key)
  | Some name => str name
  | None =>
      if bool_decide (key ∈ objectPrototypeNames) then inherited key
      else str (toLowerCase key)
  end.

Definition triggerKeyEvent (key : string) (pressed : bool) (this : InputManager)
    : list Callback :=
  if hasOnKey this then [onKey (mappedKey key) pressed] else [].

(** The handlers take what they read of the event: the changed touches,
    the position of the mouse, the code of the key. Each returns the
    manager and the callbacks it calls, in order. *)
Definition handleTouchStart (changedTouches : list Touch) (this : InputManager)
    : InputManager * list Callback :=
  let m := List.fold_left (fun m touch => mapSet (identifier touch) touch m)
             changedTouches (activeTouches this) in
  let this := setActiveTouches m this in
  (this, triggerTouchEvent "start" (mapValues (activeTouches this)) this).

Definition handleTouchMove (changedTouches : list Touch) (this : InputManager)
    : InputManager * list Callback :=
  let m := List.fold_left (fun m touch => mapSet (identifier touch) touch m)
             changedTouches (activeTouches this) in
  let this := setActiveTouches m this in
  (this, triggerTouchEvent "move" (mapValues (activeTouches this)) this).

Definition handleTouchEnd (changedTouches : list Touch) (this : InputManager)
    : InputManager * list Callback :=
  let m := List.fold_left (fun m touch => mapDelete (identifier touch) m)
             changedTouches (activeTouches this) in
  let this := setActiveTouches m this in
  (this, triggerTouchEvent "end" (mapValues (activeTouches this)) this).

Definition handleTouchCancel (this : InputManager) : InputManager * list Callback :=
  let this := setActiveTouches [] this in
  (this, triggerTouchEvent "cancel" [] this).

Definition createMockTouch (eventClientX eventClientY : R) (identifier : Z) : Touch :=
  {| identifier := identifier; clientX := eventClientX; clientY := eventClientY |}.

Definition handleMouseDown (eventClientX eventClientY : R) (this : InputManager)
    : InputManager * list Callback :=
  let mockTouch := createMockTouch eventClientX eventClientY 0 in
  let this := setActiveTouches (mapSet 0 mockTouch (activeTouches this)) this in
  (this, triggerTouchEvent "start" [mockTouch] this).

Definition handleMouseMove (eventClientX eventClientY : R) (this : InputManager)
    : InputManager * list Callback :=
  if mapHas 0 (activeTouches this) then
    let mockTouch := createMockTouch eventClientX eventClientY 0 in
    let this := setActiveTouches (mapSet 0 mockTouch (activeTouches this)) this in
    (this, triggerTouchEvent "move" [mockTouch] this)
  else (this, []).

Definition handleMouseUp (this : InputManager) : InputManager * list Callback :=
  if mapHas 0 (activeTouches this) then
    let this := setActiveTouches (mapDelete 0 (activeTouches this)) this in
    (this, triggerTouchEvent "end" [] this)
  else (this, []).

Definition handleKeyDown (code : string) (this : InputManager)
    : InputManager * list Callback :=
  if decide (code ∈ pressedKeys this) then (this, [])
  else
    let this := setPressedKeys ({[code]} ∪ pressedKeys this) this in
    (this, triggerKeyEvent code true this).

Definition handleKeyUp (code : string) (this : InputManager)
    : InputManager * list Callback :=
  if decide (code ∈ pressedKeys this) then
    let this := setPressedKeys (pressedKeys this ∖ {[code]}) this in
    (this, triggerKeyEvent code false this)
  else (this, []).

(** [InputManager.cleanup] *)
Definition InputManager_cleanup (this : InputManager) : InputManager :=
  setPressedKeys ∅ (setActiveTouches [] this).

(** *** The wiring of [GameEngine.setupEventListeners]

    The engine sets both callbacks of its input manager: [onTouch] calls
    [handleTouchInput] and [onKey] calls [handleKeyInput]. On a key
    that is no string [handleKeyInput] throws a [TypeError] at
    [key.toLowerCase()], before it has changed anything. *)
Definition wiredInputManager : InputManager :=
  {| activeTouches := []; pressedKeys := ∅; hasOnTouch := true; hasOnKey := true |}.

Definition call (clientWidth clientHeight : R) (c : Callback) (this : GameEngine)
    : GameEngine :=
  match c with
  | onTouch type touches => handleTouchInput clientWidth clientHeight type touches this
  | onKey (str key) pressed => handleKeyInput key pressed this
  | onKey (inherited _) pressed => this
  end.

Definition calls (clientWidth clientHeight : R) (cs : list Callback)
    (this : GameEngine) : GameEngine :=
  List.fold_left (fun this c => call clientWidth clientHeight c this) cs this.

(** ** The shaders of engine/RenderEngine.ts

    A [mat4] uniform holds the sixteen numbers of [uniformMatrix4fv]
    column by column; [m * v] and [a * b] are the products of GLSL. *)
Definition entry (m : list R) (row col : nat) : R := nth (col * 4 + row) m 0.

Definition mat4_vec4 (m : list R) (v : R * R * R * R) : R * R * R * R :=
  let '(x, y, z, w) := v in
  (entry m 0 0 * x + entry m 0 1 * y + entry m 0 2 * z + entry m 0 3 * w,
   entry m 1 0 * x + entry m 1 1 * y + entry m 1 2 * z + entry m 1 3 * w,
   entry m 2 0 * x + entry m 2 1 * y + entry m 2 2 * z + entry m 2 3 * w,
   entry m 3 0 * x + entry m 3 1 * y + entry m 3 2 * z + entry m 3 3 * w).

Definition mat4_mat4 (a b : list R) : list R :=
  List.flat_map
    (fun col =>
       List.map
         (fun row =>
            entry a row 0 * entry b 0 col + entry a row 1 * entry b 1 col
            + entry a row 2 * entry b 2 col + entry a row 3 * entry b 3 col)
         [0; 1; 2; 3]%nat)
    [0; 1; 2; 3]%nat.

(** The vertex shader: [gl_Position] for a vertex at [aPosition]. *)
Definition vertexShader (uModelMatrix uViewMatrix uProjectionMatrix : list R)
    (aPosition : R * R * R) : R * R * R * R :=
  let '(x, y, z) := aPosition in
  let worldPos := mat4_vec4 uModelMatrix (x, y, z, 1.0) in
  mat4_vec4 (mat4_mat4 uProjectionMatrix uViewMatrix) worldPos.

(** The fragment shader: the alpha component of [fragColor]. *)
Definition fragmentAlpha (uCloakingActive : bool) (uCloakingIntegrity : R) : R :=
  if uCloakingActive then uCloakingIntegrity * 0.3 + 0.1 else 1.0.

(** ** engine/RenderEngine.ts: initialization

    What the context answers when objects are created, compiled and
    linked is an input: the object [createShader] returns for each stage
    and its [COMPILE_STATUS], the object [createProgram] returns and its
    [LINK_STATUS], the location of each uniform name, and the buffer the
    n-th [createBuffer] returns. Shader, program and buffer objects are
    not part of the context state kept here (only the bindings are), and
    the lines written to the console are left out. *)
Inductive ShaderType := VERTEX_SHADER | FRAGMENT_SHADER.

Record Driver := mkDriver {
  createShader : ShaderType -> option nat;
  compileStatus : ShaderType -> bool;
  createProgram : option WebGLProgram;
  linkStatus : bool;
  getUniformLocation : string -> option WebGLUniformLocation;
  createBuffer : nat -> option WebGLBuffer
}.

Definition compileShader (d : Driver) (type : ShaderType) : option nat :=
  match createShader d type with
  | None => None
  | Some shader => if compileStatus d type then Some shader else None
  end.

Definition createShaderProgram (d : Driver) : option WebGLProgram :=
  let vertexShader := compileShader d VERTEX_SHADER in
  let fragmentShader := compileShader d FRAGMENT_SHADER in
  match vertexShader, fragmentShader with
  | Some _, Some _ =>
      match createProgram d with
      | None => None
      | Some program => if linkStatus d then Some program else None
      end
  | _, _ => None
  end.

Definition createGeometry (d : Driver) (this : RenderEngine)
    (g : WebGL2RenderingContext) : RenderEngine * WebGL2RenderingContext :=
  let vertexBuffer := createBuffer d 0 in
  let g := gl.bindBuffer ARRAY_BUFFER vertexBuffer g in
  let indexBuffer := createBuffer d 1 in
  let g := gl.bindBuffer ELEMENT_ARRAY_BUFFER indexBuffer g in
  ({| shaderProgram := shaderProgram this;
      vertexBuffer := vertexBuffer;
      indexBuffer := indexBuffer;
      viewMatrix := viewMatrix this;
      projectionMatrix := projectionMatrix this;
      uniformLocations := uniformLocations this |}, g).

(** [initialize]: the error the promise is rejected with, if any, and the
    engine and the context as the call leaves them. *)
Definition initialize (d : Driver) (this : RenderEngine)
    (g : WebGL2RenderingContext)
    : option string * RenderEngine * WebGL2RenderingContext :=
  let program := createShaderProgram d in
  let this :=
    {| shaderProgram := program;
       vertexBuffer := vertexBuffer this;
       indexBuffer := indexBuffer this;
       viewMatrix := viewMatrix this;
       projectionMatrix := projectionMatrix this;
       uniformLocations := uniformLocations this |} in
  match program with
  | None => (Some "Failed to create shader program"%string, this, g)
  | Some program =>
      let this :=
        {| shaderProgram := shaderProgram this;
           vertexBuffer := vertexBuffer this;
           indexBuffer := indexBuffer this;
           viewMatrix := viewMatrix this;
           projectionMatrix := projectionMatrix this;
           uniformLocations :=
             {[ "uModelMatrix"%string := getUniformLocation d "uModelMatrix";
                "uViewMatrix"%string := getUniformLocation d "uViewMatrix";
                "uProjectionMatrix"%string := getUniformLocation d "uProjectionMatrix";
                "uTime"%string := getUniformLocation d "uTime";
                "uCloakingActive"%string := getUniformLocation d "uCloakingActive";
                "uCloakingIntegrity"%string := getUniformLocation d "uCloakingIntegrity";
                "uPlasmaIntensity"%string := getUniformLocation d "uPlasmaIntensity" ]} |} in
      let '(this, g) := createGeometry d this g in
      let this := updateProjectionMatrix this g in
      (None, this, g)
  end.

(** ** Vocabulary of the properties *)

(** The norm of an orientation. *)
Definition norm (q : Quaternion.t) : R :=
  sqrt (Quaternion.x q * Quaternion.x q + Quaternion.y q * Quaternion.y q
        + Quaternion.z q * Quaternion.z q + Quaternion.w q * Quaternion.w q).

(** The orientation record read from a gl-matrix array, and back. *)
Definition quaternionOf (q : quat.t) : Quaternion.t :=
  let '(q0, q1, q2, q3) := q in Quaternion.mk q0 q1 q2 q3.

Definition arrayOf (q : Quaternion.t) : quat.t :=
  (Quaternion.x q, Quaternion.y q, Quaternion.z q, Quaternion.w q).

(** A vector with every component multiplied by [k]. *)
Definition damped (k : R) (v : Vector3.t) : Vector3.t :=
  Vector3.mk (Vector3.x v * k) (Vector3.y v * k) (Vector3.z v * k).

(** One call of [update]: its arguments and the clock value it reads. *)
Record Call := mkCall {
  callDeltaTime : R;
  callSystemStates : SystemState;
  callNow : R
}.

(** The engine and the transform after each call of a sequence of calls of
    [update] on the same transform, in order. *)
Fixpoint updates (calls : list Call) (this : PhysicsEngine)
    (transform : Transform) : list (PhysicsEngine * Transform) :=
  match calls with
  | [] => []
  | c :: calls =>
      let s := update (callDeltaTime c) (callSystemStates c) transform
                 (callNow c) this in
      s :: updates calls s.1 s.2
  end.

(** The matrix [updateProjectionMatrix] builds for an aspect ratio. *)
Definition perspective (aspect : R) : list R :=
  let f := tan (PI * 0.5 - 0.5 * (PI / 4)) in
  let rangeInv := 1.0 / (0.1 - 1000.0) in
  [ f / aspect; 0; 0; 0;
    0; f; 0; 0;
    0; 0; (0.1 + 1000.0) * rangeInv; -1;
    0; 0; 0.1 * 1000.0 * rangeInv * 2; 0 ].

(** A context as [canvas.getContext('webgl2')] returns it for a canvas of
    the given size. *)
Definition initialContext (width height : R) : WebGL2RenderingContext :=
  {| canvasWidth := width;
     canvasHeight := height;
     glViewport := (0, 0, width, height);
     glBlend := false;
     glDepthTest := false;
     glCullFace := false;
     glBlendFunc := (ONE, ZERO);
     glProgram := None;
     glUniforms := ∅;
     glArrayBuffer := None;
     glElementArrayBuffer := None;
     glAttribs := ∅;
     glAttribsEnabled := ∅;
     glDrawn := [] |}.

(** A render engine after a successful [initialize], as far as [render]
    reads it: a linked program, the two buffers, the seven locations. *)
Definition initializedRenderEngine : RenderEngine :=
  {| shaderProgram := Some 1%nat;
     vertexBuffer := Some 1%nat;
     indexBuffer := Some 2%nat;
     viewMatrix := Float32Array 16;
     projectionMatrix := perspective (800 / 600);
     uniformLocations :=
       {[ "uModelMatrix"%string := Some 0%nat;
          "uViewMatrix"%string := Some 1%nat;
          "uProjectionMatrix"%string := Some 2%nat;
          "uTime"%string := Some 3%nat;
          "uCloakingActive"%string := Some 4%nat;
          "uCloakingIntegrity"%string := Some 5%nat;
          "uPlasmaIntensity"%string := Some 6%nat ]} |}.

(** A game in flight: the craft moves and turns away from the spawn pose
    during the first mission. *)
Definition engineInFlight : GameEngine :=
  {| gl_context := Some (initialContext 800 600);
     physicsEngine :=
       {| velocity := Vector3.mk 3 (-2) (-40);
          angularVelocity := Vector3.mk 0.02 0 0;
          lastControlInput := {[ "thrust"%string := number 0.8 ]} |};
     renderEngine := Some initializedRenderEngine;
     lastTime := 16;
     deltaTime := 0.016;
     isRunning := true;
     craftTransform :=
       {| position := Vector3.mk 10 250 (-700);
          rotation := Quaternion.mk 0 1 0 0;
          scale := Vector3.mk 1 1 1 |};
     currentMission := getMissionById "urban-recon-01";
     systemStates :=
       {| propulsion := mkPropulsion 0.9 0.4 0.7;
          cloaking := Cloaking.mk true 0.8 0.1;
          sensors := Sensors.mk true 1000 false |};
     console := [] |}.

(** A craft at rest in the spawn pose with full thrust requested. *)
Definition engineAtRest : PhysicsEngine :=
  {| velocity := Vector3.mk 0 0 0;
     angularVelocity := Vector3.mk 0 0 0;
     lastControlInput := {[ "thrust"%string := number 1.0 ]} |}.

Definition spawnTransform : Transform :=
  {| position := Vector3.mk 0 100 0;
     rotation := Quaternion.mk 0 0 0 1;
     scale := Vector3.mk 1 1 1 |}.

(** Full plasma rate and full anti-gravity. *)
Definition fullPower : SystemState :=
  {| propulsion := mkPropulsion 1.0 0.3 1.0;
     cloaking := Cloaking.mk false 1.0 0;
     sensors := Sensors.mk true 1000 false |}.

(** Two frames of a flight. *)
Definition flightCalls : list Call :=
  [ mkCall 0.016 fullPower 0; mkCall 0.02 (systemStates engineInFlight) 16 ].

(** The render engine and the context after [updateViewport(800,600)] and
    then [updateViewport(1920,1080)] on a canvas of 300 by 150, the size
    of a canvas element that was given none. *)
Definition resizedOnSmallCanvas : RenderEngine * WebGL2RenderingContext :=
  let s1 := updateViewport 800 600 initializedRenderEngine (initialContext 300 150) in
  updateViewport 1920 1080 s1.1 s1.2.

(** The stored thrust is absent, or a number between 0 and 1. *)
Definition thrustInRange (this : PhysicsEngine) : Prop :=
  match prop (lastControlInput this) "thrust" with
  | number thrust => 0 <= thrust <= 1
  | undefined => True
  end.

(** The propulsion parameters and the time step of a call are in range:
    a step of at most [maxStep], plasma rate and anti-gravity in [0,1]. *)
Definition callInRange (maxStep : R) (c : Call) : Prop :=
  0 <= callDeltaTime c <= maxStep /\
  0 <= plasmaRate (propulsion (callSystemStates c)) <= 1 /\
  0 <= antiGravity (propulsion (callSystemStates c)) <= 1.

(** Every component of a vector is at most [b] in absolute value. *)
Definition within (b : R) (v : Vector3.t) : Prop :=
  Rabs (Vector3.x v) <= b /\ Rabs (Vector3.y v) <= b /\ Rabs (Vector3.z v) <= b.

(** The thrust level the propulsion step reads: the stored thrust, or 0
    when the control input has none. *)
Definition thrustLevel (this : PhysicsEngine) : R :=
  match prop (lastControlInput this) "thrust" with
  | number thrust => thrust
  | undefined => 0
  end.

(** What an event of the input manager does to the manager and the engine
    wired to it: the handler runs, then the engine takes its callbacks. *)
Definition dispatch (clientWidth clientHeight : R)
    (handled : InputManager * list Callback) (this : GameEngine)
    : InputManager * GameEngine :=
  (handled.1, calls clientWidth clientHeight handled.2 this).

(** The strings on which [toLowerCase] above is that of JavaScript. *)
Fixpoint isAscii (s : string) : bool :=
  match s with
  | EmptyString => true
  | String c s => (Ascii.nat_of_ascii c <? 128)%nat && isAscii s
  end.

(** The entry points of the engine that change the simulation. *)
Inductive Event :=
| Frame (currentTime now renderTime : R)
| StartMission (missionId : string)
| KeyInput (key : string) (pressed : bool)
| TouchInput (clientWidth clientHeight : R) (type : string) (touches : list Touch)
| Pause
| Resume (perfNow : R).

Definition handleEvent (this : GameEngine) (e : Event) : GameEngine :=
  match e with
  | Frame currentTime now renderTime => GameEngine_render currentTime now renderTime this
  | StartMission missionId => startMission missionId this
  | KeyInput key pressed => handleKeyInput key pressed this
  | TouchInput clientWidth clientHeight type touches =>
      handleTouchInput clientWidth clientHeight type touches this
  | Pause => pause this
  | Resume perfNow => resume perfNow this
  end.

Definition handleEvents (events : list Event) (this : GameEngine) : GameEngine :=
  List.fold_left handleEvent events this.

(** The touch events of a canvas of positive size: [handleTouchInput]
    divides by the width and the height of the canvas. *)
Definition eventInRange (e : Event) : Prop :=
  match e with
  | TouchInput clientWidth clientHeight _ _ => 0 < clientWidth /\ 0 < clientHeight
  | _ => True
  end.

(** How far the norm of an orientation may be from 1. *)
Definition nearUnit (q : Quaternion.t) : Prop := Rabs (norm q - 1) <= 0.0001.

(** [gl.uniform*] on the uniform values: a [null] location is ignored. *)
Definition upload (location : option WebGLUniformLocation) (v : UniformValue)
    (m : gmap WebGLUniformLocation UniformValue)
    : gmap WebGLUniformLocation UniformValue :=
  match location with
  | Some l => <[l := v]> m
  | None => m
  end.

(** The model and the view matrix that [render] builds. *)
Definition identityMatrix : list R :=
  [ 1; 0; 0; 0;  0; 1; 0; 0;  0; 0; 1; 0;  0; 0; 0; 1 ].

Definition cameraMatrix : list R :=
  [ 1; 0; 0; 0;  0; 1; 0; 0;  0; 0; 1; 0;  0; 0; -5; 1 ].

(** Concrete inputs: a craft that turns about the y axis, an engine with
    no control input yet, a context that creates, compiles and links
    everything, and a short session of play. *)
Definition turnedTransform : Transform :=
  {| position := Vector3.mk 10 250 (-700);
     rotation := Quaternion.mk 0 1 0 0;
     scale := Vector3.mk 1 1 1 |}.

Definition workingDriver : Driver :=
  {| createShader := fun type =>
       match type with VERTEX_SHADER => Some 1%nat | FRAGMENT_SHADER => Some 2%nat end;
     compileStatus := fun _ => true;
     createProgram := Some 1%nat;
     linkStatus := true;
     getUniformLocation := fun k => Some (String.length k);
     createBuffer := fun n => Some (S n) |}.

Definition session : list Event :=
  [ Frame 32 1000 32; KeyInput "w" true; Frame 48 1016 48;
    StartMission "lunar-survey-01"; TouchInput 800 600 "move" [mkTouch 0 600 150];
    Pause; Frame 64 1032 64; Resume 5000; Frame 5016 6000 5016 ].

(** A craft whose orientation has drifted off the unit sphere: a half
    turn about the y axis, half as long again as a unit quaternion. *)
Definition driftedTransform : Transform :=
  {| position := Vector3.mk 0 100 0;
     rotation := Quaternion.mk 0 (3 / 2) 0 0;
     scale := Vector3.mk 1 1 1 |}.

(** A clock value at the trough of the coil resonance. *)
Definition troughTime : R := 3 * (PI / 2) / (0.001 * 432.7).

(** * Properties *)

(** ** Quaternions *)

Section QuaternionLemmas.

Local Ltac split4 q := destruct q as [[[? ?] ?] ?].

Lemma fromEuler_squaredLength (x y z : R) :
  quat.squaredLength (quat.fromEuler x y z) = 1.
Proof.
  unfold quat.fromEuler, quat.squaredLength.
  set (a := x * (0.5 * PI / 180)).
  set (b := y * (0.5 * PI / 180)).
  set (c := z * (0.5 * PI / 180)).
  pose proof (sin2_cos2 a) as Ha.
  pose proof (sin2_cos2 b) as Hb.
  pose proof (sin2_cos2 c) as Hc.
  unfold Rsqr in Ha, Hb, Hc.
  transitivity ((sin a * sin a + cos a * cos a)
                * (sin b * sin b + cos b * cos b)
                * (sin c * sin c + cos c * cos c)).
  - ring.
  - rewrite Ha, Hb, Hc. ring.
Qed.

Lemma multiply_squaredLength (a b : quat.t) :
  quat.squaredLength (quat.multiply a b)
  = quat.squaredLength a * quat.squaredLength b.
Proof. split4 a. split4 b. unfold quat.multiply, quat.squaredLength. ring. Qed.

Lemma normalize_squaredLength (a : quat.t) :
  0 < quat.squaredLength a ->
  quat.squaredLength (quat.normalize a) = 1.
Proof.
  split4 a. unfold quat.normalize, quat.squaredLength. intros Hpos.
  destruct (Rlt_dec 0 _) as [_ | Hn]; [| contradiction].
  set (L := _ + _ + _ + _) in *.
  assert (Hs : sqrt L * sqrt L = L) by (apply sqrt_sqrt; lra).
  assert (Hs0 : sqrt L <> 0).
  { intros E. rewrite E in Hs. lra. }
  transitivity (L * (/ sqrt L * / sqrt L)).
  - unfold L. field. exact Hs0.
  - rewrite <- Hs at 1. field. exact Hs0.
Qed.

Lemma normalize_zero : quat.normalize (0, 0, 0, 0) = (0, 0, 0, 0).
Proof.
  unfold quat.normalize.
  destruct (Rlt_dec 0 _) as [H | _]; [lra |].
  f_equal; [f_equal; [f_equal |] |]; ring.
Qed.

End QuaternionLemmas.

(** ** The steps of [update] *)

Lemma norm_squaredLength (q : Quaternion.t) :
  norm q = sqrt (quat.squaredLength (arrayOf q)).
Proof. reflexivity. Qed.

Lemma norm_quaternionOf (a : quat.t) :
  norm (quaternionOf a) = sqrt (quat.squaredLength a).
Proof. destruct a as [[[? ?] ?] ?]. reflexivity. Qed.

Lemma squaredLength_nonneg (a : quat.t) : 0 <= quat.squaredLength a.
Proof. destruct a as [[[? ?] ?] ?]. unfold quat.squaredLength. nra. Qed.

Lemma unit_squaredLength (q : Quaternion.t) :
  norm q = 1 -> quat.squaredLength (arrayOf q) = 1.
Proof.
  rewrite norm_squaredLength. intros H.
  rewrite <- (sqrt_sqrt (quat.squaredLength (arrayOf q)))
    by apply squaredLength_nonneg.
  rewrite H. ring.
Qed.

Lemma updateCloakingPhysics_id (c : Cloaking.t) (transform : Transform)
    (this : PhysicsEngine) :
  updateCloakingPhysics c transform this = (this, transform).
Proof. unfold updateCloakingPhysics. destruct (Cloaking.active c); reflexivity. Qed.

Lemma updatePropulsion_angularVelocity dt p transform now this :
  angularVelocity (updatePropulsion dt p transform now this)
  = angularVelocity this.
Proof. reflexivity. Qed.

Lemma updatePropulsion_lastControlInput dt p transform now this :
  lastControlInput (updatePropulsion dt p transform now this)
  = lastControlInput this.
Proof. reflexivity. Qed.

Lemma update_rotation dt ss transform now this :
  rotation (update dt ss transform now this).2
  = quaternionOf
      (quat.normalize
         (quat.multiply (arrayOf (rotation transform))
            (quat.fromEuler
               (Vector3.x (angularVelocity this) * dt * 57.2958)
               (Vector3.y (angularVelocity this) * dt * 57.2958)
               (Vector3.z (angularVelocity this) * dt * 57.2958)))).
Proof.
  unfold update. rewrite updateCloakingPhysics_id.
  rewrite updatePropulsion_angularVelocity.
  unfold quat.set, arrayOf.
  destruct (quat.normalize _) as [[[q0 q1] q2] q3]. reflexivity.
Qed.

Lemma update_velocity dt ss transform now this :
  velocity (update dt ss transform now this).1
  = damped 0.98
      (velocity (updatePropulsion dt (propulsion ss) transform now this)).
Proof.
  unfold update. rewrite updateCloakingPhysics_id.
  destruct (quat.normalize _) as [[[q0 q1] q2] q3]. reflexivity.
Qed.

Lemma update_angularVelocity dt ss transform now this :
  angularVelocity (update dt ss transform now this).1
  = damped 0.95 (angularVelocity this).
Proof.
  unfold update. rewrite updateCloakingPhysics_id.
  destruct (quat.normalize _) as [[[q0 q1] q2] q3]. reflexivity.
Qed.

Lemma update_position dt ss transform now this :
  let v := velocity (updatePropulsion dt (propulsion ss) transform now this) in
  position (update dt ss transform now this).2
  = Vector3.mk (Vector3.x (position transform) + Vector3.x v * dt)
               (Vector3.y (position transform) + Vector3.y v * dt)
               (Vector3.z (position transform) + Vector3.z v * dt).
Proof.
  unfold update. rewrite updateCloakingPhysics_id.
  destruct (quat.normalize _) as [[[q0 q1] q2] q3]. reflexivity.
Qed.

Lemma update_unit dt ss transform now this :
  norm (rotation transform) = 1 ->
  norm (rotation (update dt ss transform now this).2) = 1.
Proof.
  intros Hunit. rewrite update_rotation, norm_quaternionOf.
  rewrite normalize_squaredLength; [apply sqrt_1 |].
  rewrite multiply_squaredLength, fromEuler_squaredLength.
  rewrite (unit_squaredLength _ Hunit). lra.
Qed.

(** ** Motion integrator *)

(** C4. Damping: whatever the time step, one call of [update] ends by
    multiplying each component of the linear velocity (as the propulsion
    step left it) by 0.98 and each component of the angular velocity by
    0.95, once; the position is integrated from the velocity before the
    damping and the orientation from the angular velocity before the
    damping. The factors do not depend on [dt]. *)
Theorem update_damping (dt : R) (ss : SystemState) (transform : Transform)
    (now : R) (this : PhysicsEngine) :
  let before := updatePropulsion dt (propulsion ss) transform now this in
  let after := (update dt ss transform now this).1 in
  Vector3.x (velocity after) = Vector3.x (velocity before) * 0.98 /\
  Vector3.y (velocity after) = Vector3.y (velocity before) * 0.98 /\
  Vector3.z (velocity after) = Vector3.z (velocity before) * 0.98 /\
  Vector3.x (angularVelocity after) = Vector3.x (angularVelocity this) * 0.95 /\
  Vector3.y (angularVelocity after) = Vector3.y (angularVelocity this) * 0.95 /\
  Vector3.z (angularVelocity after) = Vector3.z (angularVelocity this) * 0.95 /\
  Vector3.x (position (update dt ss transform now this).2)
  = Vector3.x (position transform) + Vector3.x (velocity before) * dt /\
  Vector3.y (position (update dt ss transform now this).2)
  = Vector3.y (position transform) + Vector3.y (velocity before) * dt /\
  Vector3.z (position (update dt ss transform now this).2)
  = Vector3.z (position transform) + Vector3.z (velocity before) * dt /\
  rotation (update dt ss transform now this).2
  = quaternionOf
      (quat.normalize
         (quat.multiply (arrayOf (rotation transform))
            (quat.fromEuler
               (Vector3.x (angularVelocity this) * dt * 57.2958)
               (Vector3.y (angularVelocity this) * dt * 57.2958)
               (Vector3.z (angularVelocity this) * dt * 57.2958)))).
Proof.
  cbv zeta.
  rewrite update_velocity, update_angularVelocity, update_position,
    update_rotation.
  repeat split; reflexivity.
Qed.

(** C6. The cloaking record does not reach the motion: two calls of
    [update] that differ only in the cloaking state (active or not, any
    integrity and heat) end in the same velocity, angular velocity,
    control input and transform. *)
Theorem update_cloaking_independent (c1 c2 : Cloaking.t) (dt : R)
    (p : Propulsion) (s : Sensors.t) (transform : Transform) (now : R)
    (this : PhysicsEngine) :
  update dt (mkSystemState p c1 s) transform now this
  = update dt (mkSystemState p c2 s) transform now this.
Proof.
  unfold update. cbn [propulsion cloaking].
  rewrite !updateCloakingPhysics_id. reflexivity.
Qed.

Lemma updates_unit (calls : list Call) :
  forall (this : PhysicsEngine) (transform : Transform),
    norm (rotation transform) = 1 ->
    Forall (fun s => norm (rotation s.2) = 1) (updates calls this transform).
Proof.
  induction calls as [| c calls IH]; intros this transform Hunit; cbn.
  - constructor.
  - constructor.
    + apply update_unit, Hunit.
    + apply IH, update_unit, Hunit.
Qed.

Lemma norm_positive_squaredLength (q : Quaternion.t) :
  0 < norm q -> 0 < quat.squaredLength (arrayOf q).
Proof.
  rewrite norm_squaredLength. intros Hpos.
  destruct (squaredLength_nonneg (arrayOf q)) as [Hlt | Heq]; [exact Hlt |].
  rewrite <- Heq, sqrt_0 in Hpos. lra.
Qed.

Lemma update_normalizes dt ss transform now this :
  0 < norm (rotation transform) ->
  norm (rotation (update dt ss transform now this).2) = 1.
Proof.
  intros Hpos. rewrite update_rotation, norm_quaternionOf.
  rewrite normalize_squaredLength; [apply sqrt_1 |].
  rewrite multiply_squaredLength, fromEuler_squaredLength.
  pose proof (norm_positive_squaredLength _ Hpos). lra.
Qed.

Lemma within_tolerance_of_unit (q : Quaternion.t) :
  norm q = 1 -> Rabs (norm q - 1) <= 0.0001.
Proof.
  intros ->. replace (1 - 1) with 0 by ring. rewrite Rabs_R0. lra.
Qed.

(** C5. From a unit orientation, and just as well from one whose norm
    has drifted anywhere between 1/2 and 2, after every call of every
    sequence of calls of [update] (any time steps, subsystem states,
    clock values and starting velocities) the norm of the orientation is
    within 1e-4 of 1: the step is composed on the right and the product
    is normalized in each call, so no error of the norm is carried from
    one call to the next. *)
Theorem orientation_norm_bounded (calls : list Call) (this : PhysicsEngine)
    (transform : Transform) :
  1 / 2 <= norm (rotation transform) <= 2 ->
  Forall (fun s => Rabs (norm (rotation s.2) - 1) <= 0.0001)
         (updates calls this transform).
Proof.
  intros [Hlo Hhi].
  destruct calls as [| c calls]; [constructor |].
  assert (Hfirst :
    norm (rotation (update (callDeltaTime c) (callSystemStates c) transform
                      (callNow c) this).2) = 1)
    by (apply update_normalizes; lra).
  cbn [updates]. constructor.
  - apply within_tolerance_of_unit, Hfirst.
  - eapply Forall_impl; [apply updates_unit, Hfirst |].
    intros s Hs. apply within_tolerance_of_unit, Hs.
Qed.

Lemma spread_lookup (a b : ControlInput) (k : string) :
  spread a b !! k = match b !! k with Some v => Some v | None => a !! k end.
Proof.
  unfold spread. rewrite lookup_union.
  destruct (b !! k), (a !! k); reflexivity.
Qed.

Lemma addIfDefined_prop (a : R) (input : ControlInput) (k : string) :
  addIfDefined a (prop input k)
  = match input !! k with
    | Some (number r) => a + r
    | _ => a
    end.
Proof. unfold prop. destruct (input !! k) as [[| r] |]; reflexivity. Qed.

(** C3. [applyControlInput] overwrites in the stored control input the
    keys its argument has and keeps the value of every other key; it adds
    each pitch, yaw and roll its argument gives to the matching axis of
    the angular velocity, and leaves the linear velocity alone. So after
    [{pitch: 0.1}] then [{yaw: 0.2}] the stored pitch is still 0.1 and the
    angular velocity has gained 0.1 about x and 0.2 about y. *)
Theorem applyControlInput_merges (input : ControlInput) (this : PhysicsEngine) :
  let this' := applyControlInput input this in
  let this2 :=
    applyControlInput {[ "yaw"%string := number 0.2 ]}
      (applyControlInput {[ "pitch"%string := number 0.1 ]} this) in
  (forall k : string,
     lastControlInput this' !! k
     = match input !! k with
       | Some v => Some v
       | None => lastControlInput this !! k
       end) /\
  Vector3.x (angularVelocity this')
  = match input !! "pitch"%string with
    | Some (number pitch) => Vector3.x (angularVelocity this) + pitch
    | _ => Vector3.x (angularVelocity this)
    end /\
  Vector3.y (angularVelocity this')
  = match input !! "yaw"%string with
    | Some (number yaw) => Vector3.y (angularVelocity this) + yaw
    | _ => Vector3.y (angularVelocity this)
    end /\
  Vector3.z (angularVelocity this')
  = match input !! "roll"%string with
    | Some (number roll) => Vector3.z (angularVelocity this) + roll
    | _ => Vector3.z (angularVelocity this)
    end /\
  velocity this' = velocity this /\
  prop (lastControlInput this2) "pitch" = number 0.1 /\
  prop (lastControlInput this2) "yaw" = number 0.2 /\
  prop (lastControlInput this2) "roll" = prop (lastControlInput this) "roll" /\
  prop (lastControlInput this2) "thrust" = prop (lastControlInput this) "thrust" /\
  Vector3.x (angularVelocity this2) = Vector3.x (angularVelocity this) + 0.1 /\
  Vector3.y (angularVelocity this2) = Vector3.y (angularVelocity this) + 0.2 /\
  Vector3.z (angularVelocity this2) = Vector3.z (angularVelocity this).
Proof.
  cbv zeta. unfold applyControlInput. cbn [lastControlInput angularVelocity velocity
    Vector3.x Vector3.y Vector3.z].
  rewrite !addIfDefined_prop.
  split; [intros k; apply spread_lookup |].
  do 4 (split; [reflexivity |]).
  unfold prop. rewrite !spread_lookup.
  repeat split; reflexivity.
Qed.

Lemma coilResonance_bounds (now : R) : 0.8 <= coilResonance now <= 1.0.
Proof.
  unfold coilResonance.
  pose proof (SIN_bound (now * 0.001 * MAGNETIC_FLUX_CONSTANT)) as [Hl Hu].
  lra.
Qed.

Lemma getForwardVector_eq (transform : Transform) :
  let q := rotation transform in
  getForwardVector transform
  = Vector3.mk
      (0 + (Quaternion.y q * -1 - Quaternion.z q * 0) * (Quaternion.w q * 2)
       + (Quaternion.y q * (Quaternion.x q * 0 - Quaternion.y q * 0)
          - Quaternion.z q * (Quaternion.z q * 0 - Quaternion.x q * -1)) * 2)
      (0 + (Quaternion.z q * 0 - Quaternion.x q * -1) * (Quaternion.w q * 2)
       + (Quaternion.z q * (Quaternion.y q * -1 - Quaternion.z q * 0)
          - Quaternion.x q * (Quaternion.x q * 0 - Quaternion.y q * 0)) * 2)
      (-1 + (Quaternion.x q * 0 - Quaternion.y q * 0) * (Quaternion.w q * 2)
       + (Quaternion.x q * (Quaternion.z q * 0 - Quaternion.x q * -1)
          - Quaternion.y q * (Quaternion.y q * -1 - Quaternion.z q * 0)) * 2).
Proof. reflexivity. Qed.

Lemma getForwardVector_unit (transform : Transform) :
  norm (rotation transform) = 1 ->
  let f := getForwardVector transform in
  Vector3.x f * Vector3.x f + Vector3.y f * Vector3.y f
  + Vector3.z f * Vector3.z f = 1.
Proof.
  intros Hunit. apply unit_squaredLength in Hunit.
  rewrite getForwardVector_eq. cbv zeta.
  destruct (rotation transform) as [a b c d].
  unfold arrayOf, quat.squaredLength in Hunit.
  cbn [Quaternion.x Quaternion.y Quaternion.z Quaternion.w Vector3.x Vector3.y Vector3.z] in *.
  transitivity (1 + 4 * (a * a + b * b) * ((a * a + b * b + c * c + d * d) - 1)).
  - ring.
  - rewrite Hunit. ring.
Qed.

Lemma getForwardVector_identity (transform : Transform) :
  rotation transform = Quaternion.mk 0 0 0 1 ->
  getForwardVector transform = Vector3.mk 0 0 (-1).
Proof.
  intros Hq. rewrite getForwardVector_eq. cbv zeta. rewrite Hq.
  cbn [Quaternion.x Quaternion.y Quaternion.z Quaternion.w].
  f_equal; ring.
Qed.

Lemma getForwardVector_formula (transform : Transform) :
  let q := rotation transform in
  getForwardVector transform
  = Vector3.mk
      (- 2 * (Quaternion.x q * Quaternion.z q + Quaternion.w q * Quaternion.y q))
      (2 * (Quaternion.w q * Quaternion.x q - Quaternion.y q * Quaternion.z q))
      (- (1 - 2 * (Quaternion.x q * Quaternion.x q + Quaternion.y q * Quaternion.y q))).
Proof. rewrite getForwardVector_eq. cbv zeta. f_equal; ring. Qed.

Lemma thrust_from_rest_velocity (ss : SystemState) (transform : Transform)
    (now : R) (this : PhysicsEngine) :
  velocity this = Vector3.mk 0 0 0 ->
  prop (lastControlInput this) "thrust" = number 1.0 ->
  plasmaRate (propulsion ss) = 1.0 ->
  antiGravity (propulsion ss) = 1.0 ->
  velocity (updatePropulsion 1.0 (propulsion ss) transform now this)
  = Vector3.mk
      (Vector3.x (getForwardVector transform) * 42.5)
      (- 9.81 * (1.0 - coilResonance now)
       + Vector3.y (getForwardVector transform) * 42.5)
      (Vector3.z (getForwardVector transform) * 42.5).
Proof.
  intros Hv Hthrust Hplasma Hanti.
  unfold updatePropulsion. rewrite Hthrust, Hv, Hplasma, Hanti.
  unfold truthy. destruct (Req_dec_T 1.0 0) as [E | _]; [lra |].
  unfold PLASMA_EFFICIENCY, GRAVITY_CONSTANT.
  cbn [velocity Vector3.x Vector3.y Vector3.z].
  f_equal; lra.
Qed.

(** C2, as the code has it. From rest, with thrust 1.0 requested, plasma
    rate 1.0 and anti-gravity 1.0, one call with [dt = 1.0] changes the
    velocity, before the damping, by two terms. On the vertical axis the
    anti-gravity term does not cancel gravity: it leaves
    [-9.81 * (1 - coilResonance)], anywhere between -1.962 and 0, and 0
    only when the coil resonance is at its peak 1. Along the forward
    direction of the craft, which is (0,0,-1) turned by the orientation
    [(x,y,z,w)], that is the unit vector
    [(-2(xz+wy), 2(wx-yz), -(1-2(xx+yy)))], the speed grows by exactly
    42.5 = 1.0*1.0*0.85*50*1.0. The call then returns that velocity
    damped by 0.98. *)
Theorem thrust_from_rest (ss : SystemState) (transform : Transform) (now : R)
    (this : PhysicsEngine) :
  velocity this = Vector3.mk 0 0 0 ->
  prop (lastControlInput this) "thrust" = number 1.0 ->
  plasmaRate (propulsion ss) = 1.0 ->
  antiGravity (propulsion ss) = 1.0 ->
  norm (rotation transform) = 1 ->
  let q := rotation transform in
  let fx := - 2 * (Quaternion.x q * Quaternion.z q + Quaternion.w q * Quaternion.y q) in
  let fy := 2 * (Quaternion.w q * Quaternion.x q - Quaternion.y q * Quaternion.z q) in
  let fz := - (1 - 2 * (Quaternion.x q * Quaternion.x q + Quaternion.y q * Quaternion.y q)) in
  let residue := - 9.81 * (1.0 - coilResonance now) in
  let v := velocity (updatePropulsion 1.0 (propulsion ss) transform now this) in
  -1.962 <= residue <= 0 /\
  (residue = 0 <-> coilResonance now = 1) /\
  Vector3.x v = fx * 42.5 /\
  Vector3.y v = residue + fy * 42.5 /\
  Vector3.z v = fz * 42.5 /\
  fx * fx + fy * fy + fz * fz = 1 /\
  Vector3.x v * fx + (Vector3.y v - residue) * fy + Vector3.z v * fz = 42.5 /\
  velocity (update 1.0 ss transform now this).1 = damped 0.98 v.
Proof.
  intros Hv Hthrust Hplasma Hanti Hunit. cbv zeta.
  pose proof (coilResonance_bounds now) as [Hlo Hhi].
  pose proof (getForwardVector_unit _ Hunit) as Hf. cbv zeta in Hf.
  rewrite update_velocity.
  rewrite (thrust_from_rest_velocity ss transform now this Hv Hthrust Hplasma Hanti).
  pose proof (getForwardVector_formula transform) as Hformula. cbv zeta in Hformula.
  rewrite Hformula in *.
  cbn [Vector3.x Vector3.y Vector3.z] in *.
  set (fx := - 2 * _) in *. set (fy := 2 * _) in *. set (fz := - (1 - _)) in *.
  split; [lra |]. split; [split; intros H; lra |].
  do 3 (split; [reflexivity |]). split; [exact Hf |].
  split; [| reflexivity].
  transitivity (42.5 * (fx * fx + fy * fy + fz * fz)); [lra |].
  rewrite Hf. lra.
Qed.

(** ** Mission start *)

Lemma getMissionById_urban :
  getMissionById "urban-recon-01"
  = Some (Mission.mk "urban-recon-01" "Urban Reconnaissance Alpha" atmospheric 1
            "Conduct stealth surveillance over metropolitan area."
            ["Maintain cloak integrity"; "Scan designated targets";
             "Avoid radar detection"]
            "urban-night" 300).
Proof. reflexivity. Qed.

Lemma getMissionById_unknown : getMissionById "no-such-mission" = None.
Proof. reflexivity. Qed.

Lemma startMission_known (missionId : string) (mission : Mission.t)
    (this : GameEngine) :
  getMissionById missionId = Some mission ->
  startMission missionId this
  = {| gl_context := gl_context this;
       physicsEngine := physicsEngine this;
       renderEngine := renderEngine this;
       lastTime := lastTime this;
       deltaTime := deltaTime this;
       isRunning := isRunning this;
       craftTransform :=
         {| position := Vector3.mk 0 100 0;
            rotation := Quaternion.mk 0 0 0 1;
            scale := scale (craftTransform this) |};
       currentMission := Some mission;
       systemStates := systemStates this;
       console :=
         playMissionAudio (MissionType_to_string (Mission.type mission))
           (match renderEngine this with
            | Some _ =>
                loadEnvironment (Mission.environment mission)
                  (console this
                   ++ [("Starting mission: " +:+ Mission.name mission)%string])
            | None =>
                console this
                ++ [("Starting mission: " +:+ Mission.name mission)%string]
            end) |}.
Proof. intros H. unfold startMission. rewrite H. reflexivity. Qed.

(** C1, as the code has it. Whatever the state before, [startMission] with
    a known mission id puts the craft at (0,100,0) with the identity
    orientation (0,0,0,1) and makes the mission current; the physics
    engine, and with it the linear and the angular velocity, is left as it
    was. *)
Theorem startMission_resets_pose (missionId : string) (mission : Mission.t)
    (this : GameEngine) :
  getMissionById missionId = Some mission ->
  position (craftTransform (startMission missionId this)) = Vector3.mk 0 100 0 /\
  rotation (craftTransform (startMission missionId this)) = Quaternion.mk 0 0 0 1 /\
  currentMission (startMission missionId this) = Some mission /\
  velocity (physicsEngine (startMission missionId this))
  = velocity (physicsEngine this) /\
  angularVelocity (physicsEngine (startMission missionId this))
  = angularVelocity (physicsEngine this) /\
  physicsEngine (startMission missionId this) = physicsEngine this.
Proof.
  intros H. rewrite (startMission_known _ _ _ H). repeat split; reflexivity.
Qed.

(** C10. [startMission] with a known mission id leaves the scale of the
    craft transform and the three subsystem records as they were. *)
Theorem startMission_frame (missionId : string) (mission : Mission.t)
    (this : GameEngine) :
  getMissionById missionId = Some mission ->
  scale (craftTransform (startMission missionId this))
  = scale (craftTransform this) /\
  propulsion (systemStates (startMission missionId this))
  = propulsion (systemStates this) /\
  cloaking (systemStates (startMission missionId this))
  = cloaking (systemStates this) /\
  sensors (systemStates (startMission missionId this))
  = sensors (systemStates this).
Proof.
  intros H. rewrite (startMission_known _ _ _ H). repeat split; reflexivity.
Qed.

Lemma startMission_not_found (missionId : string) (this : GameEngine) :
  getMissionById missionId = None ->
  startMission missionId this
  = {| gl_context := gl_context this;
       physicsEngine := physicsEngine this;
       renderEngine := renderEngine this;
       lastTime := lastTime this;
       deltaTime := deltaTime this;
       isRunning := isRunning this;
       craftTransform := craftTransform this;
       currentMission := None;
       systemStates := systemStates this;
       console := console this |}.
Proof. intros H. unfold startMission. rewrite H. reflexivity. Qed.

(** C8, as the code has it. [startMission] with an id that no mission has
    returns normally and leaves the craft transform, the physics engine
    (velocities and control input), the subsystem records and every other
    field as they were, except the current mission, which becomes [null]. *)
Theorem startMission_unknown (missionId : string) (this : GameEngine) :
  getMissionById missionId = None ->
  craftTransform (startMission missionId this) = craftTransform this /\
  physicsEngine (startMission missionId this) = physicsEngine this /\
  systemStates (startMission missionId this) = systemStates this /\
  renderEngine (startMission missionId this) = renderEngine this /\
  gl_context (startMission missionId this) = gl_context this /\
  console (startMission missionId this) = console this /\
  currentMission (startMission missionId this) = None.
Proof.
  intros H. rewrite (startMission_not_found _ _ H). repeat split; reflexivity.
Qed.

(** C1 fails as stated: started in flight, a known mission resets the pose
    and keeps the velocity (3,-2,-40) and the angular velocity. *)
Lemma startMission_keeps_velocity :
  getMissionById "urban-recon-01" <> None /\
  velocity (physicsEngine (startMission "urban-recon-01" engineInFlight))
  = Vector3.mk 3 (-2) (-40) /\
  velocity (physicsEngine (startMission "urban-recon-01" engineInFlight))
  <> Vector3.mk 0 0 0 /\
  angularVelocity (physicsEngine (startMission "urban-recon-01" engineInFlight))
  <> Vector3.mk 0 0 0.
Proof.
  rewrite (startMission_known _ _ _ getMissionById_urban).
  rewrite getMissionById_urban. cbn.
  repeat split; try discriminate; intros E; injection E; intros; lra.
Qed.

(** C8 fails as stated: during a mission, an unknown id clears the
    current mission. *)
Lemma startMission_unknown_clears_mission :
  getMissionById "no-such-mission" = None /\
  currentMission engineInFlight <> None /\
  currentMission (startMission "no-such-mission" engineInFlight) = None /\
  currentMission (startMission "no-such-mission" engineInFlight)
  <> currentMission engineInFlight.
Proof.
  rewrite (startMission_not_found _ _ getMissionById_unknown).
  cbn [currentMission engineInFlight]. rewrite getMissionById_urban.
  repeat split; discriminate.
Qed.

(** ** Graphics pipeline *)

Section UniformFrame.

Variables (location : option WebGLUniformLocation) (v : UniformValue)
          (g : WebGL2RenderingContext).

Lemma uniform_canvasWidth : canvasWidth (gl.uniform location v g) = canvasWidth g.
Proof. destruct location; reflexivity. Qed.

Lemma uniform_canvasHeight : canvasHeight (gl.uniform location v g) = canvasHeight g.
Proof. destruct location; reflexivity. Qed.

Lemma uniform_glViewport : glViewport (gl.uniform location v g) = glViewport g.
Proof. destruct location; reflexivity. Qed.

Lemma uniform_glBlend : glBlend (gl.uniform location v g) = glBlend g.
Proof. destruct location; reflexivity. Qed.

Lemma uniform_glBlendFunc : glBlendFunc (gl.uniform location v g) = glBlendFunc g.
Proof. destruct location; reflexivity. Qed.

Lemma uniform_glDrawn : glDrawn (gl.uniform location v g) = glDrawn g.
Proof. destruct location; reflexivity. Qed.

End UniformFrame.

Create Rewrite HintDb glframe.

#[local] Hint Rewrite uniform_canvasWidth uniform_canvasHeight uniform_glViewport
  uniform_glBlend uniform_glBlendFunc uniform_glDrawn : glframe.

Ltac gl_frame :=
  unfold gl.uniformMatrix4fv, gl.uniform1f, gl.uniform1i, gl.enable, gl.disable;
  repeat (cbn [gl.viewport gl.setCapability gl.blendFunc gl.useProgram
               gl.bindBuffer gl.vertexAttribPointer gl.enableVertexAttribArray
               gl.drawElements canvasWidth canvasHeight glViewport glBlend
               glBlendFunc glDrawn fst snd shaderProgram vertexBuffer
               indexBuffer viewMatrix projectionMatrix uniformLocations];
          autorewrite with glframe).

Lemma render_uninitialized dt transform ss perfNow this g :
  shaderProgram this = None ->
  render dt transform ss perfNow this g = (this, g).
Proof. intros H. unfold render. rewrite H. reflexivity. Qed.

Lemma render_projectionMatrix dt transform ss perfNow this g :
  projectionMatrix (render dt transform ss perfNow this g).1
  = projectionMatrix this.
Proof. unfold render. destruct (shaderProgram this); reflexivity. Qed.

Lemma render_canvas dt transform ss perfNow this g :
  canvasWidth (render dt transform ss perfNow this g).2 = canvasWidth g /\
  canvasHeight (render dt transform ss perfNow this g).2 = canvasHeight g.
Proof.
  unfold render. destruct (shaderProgram this); [| split; reflexivity].
  cbv zeta. destruct (Cloaking.active (cloaking ss)); gl_frame; split; reflexivity.
Qed.

(** C7. A call of [render] on an engine that has its shader program leaves
    blending enabled exactly when the cloaking flag is set, then with the
    factors source-alpha and one-minus-source-alpha; when the flag is not
    set it leaves blending disabled and the factors as they were. The one
    draw call of the frame is issued under that state. *)
Theorem render_blending (dt : R) (transform : Transform) (ss : SystemState)
    (perfNow : R) (this : RenderEngine) (g : WebGL2RenderingContext)
    (program : WebGLProgram) :
  shaderProgram this = Some program ->
  glBlend (render dt transform ss perfNow this g).2
  = Cloaking.active (cloaking ss) /\
  glBlendFunc (render dt transform ss perfNow this g).2
  = (if Cloaking.active (cloaking ss)
     then (SRC_ALPHA, ONE_MINUS_SRC_ALPHA)
     else glBlendFunc g) /\
  glDrawn (render dt transform ss perfNow this g).2
  = glDrawn g
    ++ [mkDrawCall 3 0 (Cloaking.active (cloaking ss))
          (glBlendFunc (render dt transform ss perfNow this g).2)].
Proof.
  intros Hprogram. unfold render. rewrite Hprogram. cbv zeta.
  destruct (Cloaking.active (cloaking ss)); gl_frame; repeat split; reflexivity.
Qed.

Lemma updateProjectionMatrix_perspective (this : RenderEngine)
    (g : WebGL2RenderingContext) :
  length (projectionMatrix this) = 16%nat ->
  projectionMatrix (updateProjectionMatrix this g)
  = perspective (canvasWidth g / canvasHeight g).
Proof.
  intros Hlen. unfold updateProjectionMatrix, fill. rewrite Hlen. reflexivity.
Qed.

Lemma perspective_length (aspect : R) : length (perspective aspect) = 16%nat.
Proof. reflexivity. Qed.

Lemma updateViewport_projectionMatrix (width height : R) (this : RenderEngine)
    (g : WebGL2RenderingContext) :
  length (projectionMatrix this) = 16%nat ->
  projectionMatrix (updateViewport width height this g).1
  = perspective (canvasWidth g / canvasHeight g).
Proof.
  intros Hlen. unfold updateViewport. cbn [fst].
  rewrite (updateProjectionMatrix_perspective _ _ Hlen). reflexivity.
Qed.

Lemma updateViewport_context (width height : R) (this : RenderEngine)
    (g : WebGL2RenderingContext) :
  (updateViewport width height this g).2 = gl.viewport 0 0 width height g.
Proof. reflexivity. Qed.

Lemma focal_positive : 0 < tan (PI * 0.5 - 0.5 * (PI / 4)).
Proof. pose proof PI_RGT_0. apply tan_gt_0; lra. Qed.

(** C9, as the code has it. After [updateViewport(800,600)] and then
    [updateViewport(1920,1080)], with or without a [render] between the
    two, the GL viewport is the last one asked for and the projection
    matrix is the perspective matrix of the aspect ratio of the canvas of
    the context ([gl.canvas.width / gl.canvas.height]), whatever widths
    and heights were passed: it is that of 1920/1080 when the canvas
    itself is 1920 by 1080. *)
Theorem resize_projection (this : RenderEngine) (g : WebGL2RenderingContext)
    (withRender : bool) (dt : R) (transform : Transform) (ss : SystemState)
    (perfNow : R) :
  length (projectionMatrix this) = 16%nat ->
  let s1 := updateViewport 800 600 this g in
  let s2 := if withRender then render dt transform ss perfNow s1.1 s1.2 else s1 in
  let s3 := updateViewport 1920 1080 s2.1 s2.2 in
  projectionMatrix s3.1 = perspective (canvasWidth g / canvasHeight g) /\
  glViewport s3.2 = (0, 0, 1920, 1080) /\
  (canvasWidth g = 1920 -> canvasHeight g = 1080 ->
   projectionMatrix s3.1 = perspective (1920 / 1080)).
Proof.
  intros Hlen s1 s2 s3.
  assert (H1 : projectionMatrix s1.1 = perspective (canvasWidth g / canvasHeight g))
    by apply updateViewport_projectionMatrix, Hlen.
  assert (H2 : length (projectionMatrix s2.1) = 16%nat).
  { subst s2. destruct withRender.
    - rewrite render_projectionMatrix, H1. apply perspective_length.
    - rewrite H1. apply perspective_length. }
  assert (Hc : canvasWidth s2.2 = canvasWidth g /\ canvasHeight s2.2 = canvasHeight g).
  { subst s2. destruct withRender.
    - destruct (render_canvas dt transform ss perfNow s1.1 s1.2) as [-> ->].
      split; reflexivity.
    - split; reflexivity. }
  destruct Hc as [Hw Hh].
  assert (H3 : projectionMatrix s3.1 = perspective (canvasWidth g / canvasHeight g)).
  { subst s3. rewrite (updateViewport_projectionMatrix _ _ _ _ H2), Hw, Hh.
    reflexivity. }
  split; [exact H3 |]. split; [reflexivity |].
  intros Ew Eh. rewrite H3, Ew, Eh. reflexivity.
Qed.

(** C9 fails as stated: on a canvas of 300 by 150 the two calls leave the
    projection matrix of the aspect ratio 300/150, not of 1920/1080. *)
Lemma resize_ignores_arguments :
  glViewport resizedOnSmallCanvas.2 = (0, 0, 1920, 1080) /\
  projectionMatrix resizedOnSmallCanvas.1 = perspective (300 / 150) /\
  projectionMatrix resizedOnSmallCanvas.1 <> perspective (1920 / 1080).
Proof.
  split; [reflexivity |]. split; [reflexivity |].
  change (projectionMatrix resizedOnSmallCanvas.1) with (perspective (300 / 150)).
  unfold perspective. intros E. injection E as E.
  pose proof focal_positive as Hf. lra.
Qed.

(** ** The theorems at concrete inputs *)

Lemma norm_spawn : norm (rotation spawnTransform) = 1.
Proof.
  unfold norm, spawnTransform.
  cbn [rotation Quaternion.x Quaternion.y Quaternion.z Quaternion.w].
  replace (0 * 0 + 0 * 0 + 0 * 0 + 1 * 1) with 1 by ring. apply sqrt_1.
Qed.

Lemma norm_drifted : norm (rotation driftedTransform) = 3 / 2.
Proof.
  unfold norm, driftedTransform.
  cbn [rotation Quaternion.x Quaternion.y Quaternion.z Quaternion.w].
  replace (0 * 0 + 3 / 2 * (3 / 2) + 0 * 0 + 0 * 0) with (3 / 2 * (3 / 2)) by ring.
  apply sqrt_square. lra.
Qed.

Lemma orientation_norm_bounded_witness :
  1 / 2 <= norm (rotation driftedTransform) <= 2 /\
  Forall (fun s => Rabs (norm (rotation s.2) - 1) <= 0.0001)
         (updates flightCalls (physicsEngine engineInFlight) driftedTransform).
Proof.
  assert (H : 1 / 2 <= norm (rotation driftedTransform) <= 2)
    by (rewrite norm_drifted; lra).
  split; [exact H |].
  apply (orientation_norm_bounded flightCalls (physicsEngine engineInFlight)
           driftedTransform H).
Defined.

Lemma startMission_resets_pose_witness :
  getMissionById "lunar-survey-01" <> None /\
  position (craftTransform (startMission "lunar-survey-01" engineInFlight))
  = Vector3.mk 0 100 0 /\
  rotation (craftTransform (startMission "lunar-survey-01" engineInFlight))
  = Quaternion.mk 0 0 0 1 /\
  velocity (physicsEngine (startMission "lunar-survey-01" engineInFlight))
  = velocity (physicsEngine engineInFlight).
Proof.
  split; [discriminate |].
  pose proof (startMission_resets_pose "lunar-survey-01" _ engineInFlight eq_refl)
    as (Hp & Hr & _ & Hv & _).
  repeat split; assumption.
Defined.

Lemma startMission_frame_witness :
  getMissionById "urban-recon-01" <> None /\
  scale (craftTransform (startMission "urban-recon-01" engineInFlight))
  = scale (craftTransform engineInFlight) /\
  cloaking (systemStates (startMission "urban-recon-01" engineInFlight))
  = cloaking (systemStates engineInFlight).
Proof.
  split; [discriminate |].
  pose proof (startMission_frame "urban-recon-01" _ engineInFlight eq_refl)
    as (Hs & _ & Hc & _).
  split; assumption.
Defined.

Lemma startMission_unknown_witness :
  getMissionById "no-such-mission" = None /\
  craftTransform (startMission "no-such-mission" engineInFlight)
  = craftTransform engineInFlight /\
  currentMission (startMission "no-such-mission" engineInFlight) = None.
Proof.
  split; [reflexivity |].
  pose proof (startMission_unknown "no-such-mission" engineInFlight eq_refl)
    as (Ht & _ & _ & _ & _ & _ & Hm).
  split; assumption.
Defined.

Lemma render_blending_witness :
  shaderProgram initializedRenderEngine = Some 1%nat /\
  glBlend (render 0.016 spawnTransform (systemStates engineInFlight) 16
             initializedRenderEngine (initialContext 800 600)).2 = true /\
  glBlend (render 0.016 spawnTransform fullPower 16
             initializedRenderEngine (initialContext 800 600)).2 = false.
Proof.
  split; [reflexivity |]. split.
  - apply (render_blending 0.016 spawnTransform (systemStates engineInFlight) 16
             initializedRenderEngine (initialContext 800 600) 1%nat eq_refl).
  - apply (render_blending 0.016 spawnTransform fullPower 16
             initializedRenderEngine (initialContext 800 600) 1%nat eq_refl).
Defined.

Lemma resize_projection_witness :
  length (projectionMatrix initializedRenderEngine) = 16%nat /\
  projectionMatrix
    (updateViewport 1920 1080
       (render 0.016 spawnTransform fullPower 16
          (updateViewport 800 600 initializedRenderEngine
             (initialContext 1920 1080)).1
          (updateViewport 800 600 initializedRenderEngine
             (initialContext 1920 1080)).2).1
       (render 0.016 spawnTransform fullPower 16
          (updateViewport 800 600 initializedRenderEngine
             (initialContext 1920 1080)).1
          (updateViewport 800 600 initializedRenderEngine
             (initialContext 1920 1080)).2).2).1
  = perspective (1920 / 1080).
Proof.
  split; [reflexivity |].
  apply (resize_projection initializedRenderEngine (initialContext 1920 1080)
           true 0.016 spawnTransform fullPower 16 eq_refl); reflexivity.
Defined.

(** * Further properties of the code *)

(** ** Motion integrator *)

Lemma update_lastControlInput dt ss transform now this :
  lastControlInput (update dt ss transform now this).1 = lastControlInput this.
Proof.
  unfold update. rewrite updateCloakingPhysics_id.
  destruct (quat.normalize _) as [[[q0 q1] q2] q3]. reflexivity.
Qed.

Lemma update_scale dt ss transform now this :
  scale (update dt ss transform now this).2 = scale transform.
Proof.
  unfold update. rewrite updateCloakingPhysics_id.
  destruct (quat.normalize _) as [[[q0 q1] q2] q3]. reflexivity.
Qed.

Lemma damped_damped (a b : R) (v : Vector3.t) :
  damped a (damped b v) = damped (b * a) v.
Proof. unfold damped. cbn [Vector3.x Vector3.y Vector3.z]. f_equal; ring. Qed.

(** X2. Along any sequence of calls of [update], the angular velocity
    after the call of index [i] is the starting one times 0.95 to the
    power [i + 1], whatever the time steps; the stored control input and
    the scale of the transform are never changed. *)
Theorem updates_angular_decay (calls : list Call) :
  forall (this : PhysicsEngine) (transform : Transform) (i : nat)
         (s : PhysicsEngine * Transform),
    updates calls this transform !! i = Some s ->
    angularVelocity s.1 = damped (0.95 ^ S i) (angularVelocity this) /\
    lastControlInput s.1 = lastControlInput this /\
    scale s.2 = scale transform.
Proof.
  induction calls as [| c calls IH]; intros this transform i s Hs.
  - discriminate.
  - destruct i as [| i]; cbn in Hs.
    + injection Hs as <-.
      rewrite update_angularVelocity, update_lastControlInput, update_scale.
      repeat split. f_equal. cbn [pow]. ring.
    + apply IH in Hs as (Ha & Hc & Hsc).
      rewrite Ha, Hc, Hsc.
      rewrite update_angularVelocity, update_lastControlInput, update_scale.
      repeat split. rewrite damped_damped. f_equal.
Qed.

Lemma updatePropulsion_velocity dt p transform now this :
  let f := getForwardVector transform in
  let g := - 9.81 * (1 - antiGravity p * coilResonance now) in
  let m := thrustLevel this * (plasmaRate p * 0.85) * 50 in
  velocity (updatePropulsion dt p transform now this)
  = Vector3.mk (Vector3.x (velocity this) + Vector3.x f * m * dt)
               (Vector3.y (velocity this) + g * dt + Vector3.y f * m * dt)
               (Vector3.z (velocity this) + Vector3.z f * m * dt).
Proof.
  cbv zeta. unfold updatePropulsion, thrustLevel, PLASMA_EFFICIENCY, GRAVITY_CONSTANT.
  destruct (prop (lastControlInput this) "thrust") as [| t].
  - cbn [velocity Vector3.x Vector3.y Vector3.z]. f_equal; lra.
  - unfold truthy. destruct (Req_dec_T t 0) as [-> | Ht];
      cbn [velocity Vector3.x Vector3.y Vector3.z]; f_equal; lra.
Qed.

Lemma truthy_false_thrustLevel (this : PhysicsEngine) :
  truthy (prop (lastControlInput this) "thrust") = false ->
  thrustLevel this = 0.
Proof.
  unfold thrustLevel, truthy.
  destruct (prop (lastControlInput this) "thrust") as [| t]; [reflexivity |].
  destruct (Req_dec_T t 0) as [-> | _]; [reflexivity | discriminate].
Qed.

Lemma antiGravity_residue (a : R) (now : R) :
  0 <= a <= 1 -> -9.81 <= - 9.81 * (1 - a * coilResonance now) <= 0.
Proof.
  intros [Ha0 Ha1]. pose proof (coilResonance_bounds now) as [Hlo Hhi].
  assert (0 <= a * coilResonance now <= 1) by nra. lra.
Qed.

(** X3. Without a thrust to apply (the stored control input has no
    thrust, an undefined one or 0), the propulsion step leaves the
    horizontal velocity alone whatever the orientation and the plasma
    rate, and adds [-9.81 * (1 - antiGravity * coilResonance) * dt] to the
    vertical one; with an anti-gravity setting in [0,1] and [dt >= 0] that
    is never upward and takes at most [9.81 * dt]. *)
Theorem coasting (dt : R) (p : Propulsion) (transform : Transform) (now : R)
    (this : PhysicsEngine) :
  truthy (prop (lastControlInput this) "thrust") = false ->
  let v := velocity this in
  let v' := velocity (updatePropulsion dt p transform now this) in
  Vector3.x v' = Vector3.x v /\
  Vector3.z v' = Vector3.z v /\
  Vector3.y v' = Vector3.y v - 9.81 * (1 - antiGravity p * coilResonance now) * dt /\
  (0 <= antiGravity p <= 1 -> 0 <= dt ->
   Vector3.y v - 9.81 * dt <= Vector3.y v' <= Vector3.y v).
Proof.
  intros Hfalse. cbv zeta. rewrite updatePropulsion_velocity. cbv zeta.
  rewrite (truthy_false_thrustLevel _ Hfalse).
  cbn [Vector3.x Vector3.y Vector3.z].
  split; [lra |]. split; [lra |]. split; [lra |].
  intros Ha Hdt. pose proof (antiGravity_residue _ now Ha) as [Hlo Hhi].
  split; nra.
Qed.

Lemma forward_components (transform : Transform) :
  norm (rotation transform) = 1 ->
  let f := getForwardVector transform in
  -1 <= Vector3.x f <= 1 /\ -1 <= Vector3.y f <= 1 /\ -1 <= Vector3.z f <= 1.
Proof.
  intros Hunit. pose proof (getForwardVector_unit _ Hunit) as H. cbv zeta in *.
  repeat split; nra.
Qed.

Lemma Rabs_bound (a b : R) : Rabs a <= b -> - b <= a <= b.
Proof. unfold Rabs. destruct (Rcase_abs a); lra. Qed.

Lemma update_within (maxStep dt : R) (ss : SystemState) (transform : Transform)
    (now : R) (this : PhysicsEngine) :
  norm (rotation transform) = 1 ->
  thrustInRange this ->
  0 <= dt <= maxStep ->
  0 <= plasmaRate (propulsion ss) <= 1 ->
  0 <= antiGravity (propulsion ss) <= 1 ->
  within (49 * (9.81 + 42.5) * maxStep) (velocity this) ->
  within (49 * (9.81 + 42.5) * maxStep) (velocity (update dt ss transform now this).1).
Proof.
  intros Hunit Hthrust [Hdt0 Hdt1] [Hp0 Hp1] Ha (Hx & Hy & Hz).
  rewrite update_velocity, updatePropulsion_velocity. cbv zeta.
  pose proof (forward_components _ Hunit) as (Hfx & Hfy & Hfz). cbv zeta in *.
  pose proof (antiGravity_residue _ now Ha) as [Hg0 Hg1].
  set (g := - 9.81 * (1 - antiGravity (propulsion ss) * coilResonance now)) in *.
  assert (Hlevel : 0 <= thrustLevel this <= 1).
  { unfold thrustInRange in Hthrust. unfold thrustLevel.
    destruct (prop (lastControlInput this) "thrust"); lra. }
  set (m := thrustLevel this * (plasmaRate (propulsion ss) * 0.85) * 50).
  assert (Hm : 0 <= m <= 42.5) by (unfold m; nra).
  assert (Hu : 0 <= m * dt <= 42.5 * maxStep) by nra.
  assert (Hgd : - 9.81 * maxStep <= g * dt <= 0) by nra.
  set (u := m * dt) in *.
  set (fx := Vector3.x (getForwardVector transform)) in *.
  set (fy := Vector3.y (getForwardVector transform)) in *.
  set (fz := Vector3.z (getForwardVector transform)) in *.
  assert (Hux : - (42.5 * maxStep) <= fx * u <= 42.5 * maxStep) by nra.
  assert (Huy : - (42.5 * maxStep) <= fy * u <= 42.5 * maxStep) by nra.
  assert (Huz : - (42.5 * maxStep) <= fz * u <= 42.5 * maxStep) by nra.
  apply Rabs_bound in Hx, Hy, Hz.
  unfold within, damped. cbn [Vector3.x Vector3.y Vector3.z].
  replace (fx * m * dt) with (fx * u) by (unfold u; ring).
  replace (fy * m * dt) with (fy * u) by (unfold u; ring).
  replace (fz * m * dt) with (fz * u) by (unfold u; ring).
  repeat split; apply Rabs_le; lra.
Qed.

(** X4. The velocity cannot run away. Along any sequence of calls of
    [update] with time steps in [0, maxStep], plasma rate and
    anti-gravity in [0,1], a stored thrust in [0,1] (or none) and a unit
    orientation at the start, a velocity whose components are within
    [49 * (9.81 + 42.5) * maxStep] stays within that bound after every
    call: the damping by 0.98 absorbs what gravity and thrust add. *)
Theorem velocity_bounded (maxStep : R) (calls : list Call) :
  forall (this : PhysicsEngine) (transform : Transform),
    norm (rotation transform) = 1 ->
    thrustInRange this ->
    Forall (callInRange maxStep) calls ->
    within (49 * (9.81 + 42.5) * maxStep) (velocity this) ->
    Forall (fun s => within (49 * (9.81 + 42.5) * maxStep) (velocity s.1))
           (updates calls this transform).
Proof.
  induction calls as [| c calls IH]; intros this transform Hunit Hthrust Hcalls Hv.
  - constructor.
  - apply Forall_cons in Hcalls as [(Hdt & Hp & Ha) Hcalls].
    assert (Hstep :
      within (49 * (9.81 + 42.5) * maxStep)
        (velocity (update (callDeltaTime c) (callSystemStates c) transform
                     (callNow c) this).1))
      by (apply update_within; assumption).
    cbn. constructor; [exact Hstep |].
    apply IH; [apply update_unit, Hunit | | exact Hcalls | exact Hstep].
    unfold thrustInRange. rewrite update_lastControlInput. exact Hthrust.
Qed.

(** X5. An empty control input changes nothing: [applyControlInput({})]
    returns the engine as it was. *)
Theorem applyControlInput_empty (this : PhysicsEngine) :
  applyControlInput ∅ this = this.
Proof.
  destruct this as [v [ax ay az] last]. unfold applyControlInput, spread, prop.
  cbn [lastControlInput angularVelocity velocity Vector3.x Vector3.y Vector3.z].
  rewrite !lookup_empty. cbn. f_equal. apply (left_id_L ∅ (∪)).
Qed.

(** X6. What [applyControlInput] stores. After two inputs the stored
    control input has, under each key, the value of the second input if
    it has the key, else that of the first, else what was stored before;
    so two inputs with no key in common store the same in either order,
    and an input applied twice stores what it stores applied once. The
    linear velocity is the same in either order. *)
Theorem applyControlInput_stored (a b : ControlInput) (this : PhysicsEngine) :
  (forall k : string,
     lastControlInput (applyControlInput b (applyControlInput a this)) !! k
     = match b !! k with
       | Some v => Some v
       | None => match a !! k with
                 | Some v => Some v
                 | None => lastControlInput this !! k
                 end
       end) /\
  (a ##ₘ b ->
   lastControlInput (applyControlInput b (applyControlInput a this))
   = lastControlInput (applyControlInput a (applyControlInput b this))) /\
  lastControlInput (applyControlInput a (applyControlInput a this))
  = lastControlInput (applyControlInput a this) /\
  velocity (applyControlInput b (applyControlInput a this))
  = velocity (applyControlInput a (applyControlInput b this)).
Proof.
  unfold applyControlInput.
  cbn [lastControlInput angularVelocity velocity Vector3.x Vector3.y Vector3.z].
  split; [| split; [| split]].
  - intros k. rewrite !spread_lookup. reflexivity.
  - intros Hdisjoint. unfold spread.
    rewrite !(assoc_L (∪)). f_equal. apply map_union_comm.
    symmetry. exact Hdisjoint.
  - unfold spread. rewrite (assoc_L (∪)). f_equal. apply (idemp_L (∪)).
  - reflexivity.
Qed.



(** ** Missions *)

(** X8. [getMissionById] returns a mission exactly when it is one of the
    table with the id asked for, and nothing exactly when the id is
    neither "urban-recon-01" nor "lunar-survey-01": the ids of the table
    are distinct, so looking a mission up by its own id gives it back. *)
Theorem getMissionById_spec (id : string) (m : Mission.t) :
  (getMissionById id = Some m <-> In m missions /\ Mission.id m = id) /\
  (getMissionById id = None
   <-> id <> "urban-recon-01"%string /\ id <> "lunar-survey-01"%string) /\
  (In m missions -> getMissionById (Mission.id m) = Some m).
Proof.
  unfold getMissionById, missions. cbn [List.find Mission.id In].
  split; [| split].
  - destruct (String.eqb_spec "urban-recon-01" id) as [<- | Hu];
      [| destruct (String.eqb_spec "lunar-survey-01" id) as [<- | Hl]].
    + split.
      * intros E. injection E as <-. split; [left |]; reflexivity.
      * intros [[<- | [<- | []]] E]; [reflexivity | discriminate E].
    + split.
      * intros E. injection E as <-. split; [right; left |]; reflexivity.
      * intros [[<- | [<- | []]] E]; [discriminate E | reflexivity].
    + split; [discriminate |].
      intros [[<- | [<- | []]] E]; cbn in E; congruence.
  - destruct (String.eqb_spec "urban-recon-01" id) as [<- | Hu];
      [| destruct (String.eqb_spec "lunar-survey-01" id) as [<- | Hl]].
    + split; [discriminate | intros [H _]; congruence].
    + split; [discriminate | intros [_ H]; congruence].
    + split; [split; congruence | reflexivity].
  - intros [<- | [<- | []]]; reflexivity.
Qed.

(** X9. Starting the same mission again changes nothing but the console:
    the pose, the physics engine, the current mission, the subsystem
    records, the render engine and the context are those of the first
    start; for an unknown id the console is the same too. *)
Theorem startMission_again (missionId : string) (this : GameEngine) :
  let once := startMission missionId this in
  let again := startMission missionId once in
  craftTransform again = craftTransform once /\
  physicsEngine again = physicsEngine once /\
  currentMission again = currentMission once /\
  systemStates again = systemStates once /\
  renderEngine again = renderEngine once /\
  gl_context again = gl_context once /\
  (getMissionById missionId = None -> again = once).
Proof.
  cbv zeta. destruct (getMissionById missionId) as [mission |] eqn:E.
  - rewrite !(startMission_known _ _ _ E). cbn.
    repeat split; try reflexivity. discriminate.
  - rewrite !(startMission_not_found _ _ E). cbn. repeat split; reflexivity.
Qed.

(** ** Keyboard and touch steering *)

Lemma toLowerChar_idem (c : Ascii.ascii) :
  toLowerChar (toLowerChar c) = toLowerChar c.
Proof. destruct c as [[] [] [] [] [] [] [] []]; reflexivity. Qed.

Lemma toLowerCase_idem (s : string) : toLowerCase (toLowerCase s) = toLowerCase s.
Proof.
  induction s as [| c s IH]; [reflexivity |].
  cbn. rewrite toLowerChar_idem, IH. reflexivity.
Qed.

Lemma prop_controlInput (pitch yaw roll thrust : R) :
  prop (controlInput pitch yaw roll thrust) "pitch" = number pitch /\
  prop (controlInput pitch yaw roll thrust) "yaw" = number yaw /\
  prop (controlInput pitch yaw roll thrust) "roll" = number roll /\
  prop (controlInput pitch yaw roll thrust) "thrust" = number thrust.
Proof. repeat split; reflexivity. Qed.

Lemma applyInput_controlInput (pitch yaw roll thrust : R) (this : GameEngine) :
  let this' := applyInput (controlInput pitch yaw roll thrust) this in
  angularVelocity (physicsEngine this')
  = Vector3.mk (Vector3.x (angularVelocity (physicsEngine this)) + pitch)
               (Vector3.y (angularVelocity (physicsEngine this)) + yaw)
               (Vector3.z (angularVelocity (physicsEngine this)) + roll) /\
  prop (lastControlInput (physicsEngine this')) "thrust" = number thrust /\
  velocity (physicsEngine this') = velocity (physicsEngine this) /\
  craftTransform this' = craftTransform this /\
  systemStates this' = systemStates this /\
  currentMission this' = currentMission this.
Proof.
  cbv zeta. unfold applyInput, applyControlInput.
  cbn [physicsEngine angularVelocity lastControlInput velocity craftTransform
       systemStates currentMission Vector3.x Vector3.y Vector3.z].
  destruct (prop_controlInput pitch yaw roll thrust) as (-> & -> & -> & Ht).
  repeat split. unfold prop. rewrite spread_lookup. exact Ht.
Qed.

(** X10. A key that is not W, A, S or D, in either case, is ignored by
    [handleKeyInput]: the engine is unchanged. The case of the key never
    matters. *)
Theorem handleKeyInput_other (key : string) (pressed : bool) (this : GameEngine) :
  (toLowerCase key <> "w"%string -> toLowerCase key <> "s"%string ->
   toLowerCase key <> "a"%string -> toLowerCase key <> "d"%string ->
   handleKeyInput key pressed this = this) /\
  handleKeyInput (toLowerCase key) pressed this = handleKeyInput key pressed this.
Proof.
  split.
  - intros Hw Hs Ha Hd. unfold handleKeyInput.
    destruct (String.eqb_spec (toLowerCase key) "w"); [contradiction |].
    destruct (String.eqb_spec (toLowerCase key) "s"); [contradiction |].
    destruct (String.eqb_spec (toLowerCase key) "a"); [contradiction |].
    destruct (String.eqb_spec (toLowerCase key) "d"); [contradiction |].
    reflexivity.
  - unfold handleKeyInput. rewrite toLowerCase_idem. reflexivity.
Qed.

Lemma handleKeyInput_cases (key : string) (pressed : bool) (this : GameEngine) :
  In (toLowerCase key) ["w"; "s"; "a"; "d"]%string ->
  exists pitch yaw : R,
    handleKeyInput key pressed this
    = applyInput (controlInput pitch yaw 0 0.8) this /\
    (pressed = false -> pitch = 0 /\ yaw = 0).
Proof.
  intros Hkey. unfold handleKeyInput.
  destruct Hkey as [<- | [<- | [<- | [<- | []]]]]; cbn [String.eqb Ascii.eqb Bool.eqb];
    eexists; eexists; (split; [reflexivity |]); intros ->; split; ring.
Qed.

(** X11. Every steering key event stores the thrust 0.8, the release of a
    key as well as its press: releasing W, A, S or D leaves the angular
    velocity as it is and the thrust on. No key event changes the linear
    velocity, the roll rate or the pose. *)
Theorem handleKeyInput_thrust_stays (key : string) (pressed : bool)
    (this : GameEngine) :
  In (toLowerCase key) ["w"; "s"; "a"; "d"]%string ->
  let this' := handleKeyInput key pressed this in
  prop (lastControlInput (physicsEngine this')) "thrust" = number 0.8 /\
  velocity (physicsEngine this') = velocity (physicsEngine this) /\
  Vector3.z (angularVelocity (physicsEngine this'))
  = Vector3.z (angularVelocity (physicsEngine this)) /\
  craftTransform this' = craftTransform this /\
  (pressed = false ->
   angularVelocity (physicsEngine this') = angularVelocity (physicsEngine this)).
Proof.
  intros Hkey. cbv zeta.
  destruct (handleKeyInput_cases key pressed this Hkey) as (pitch & yaw & -> & Hrel).
  destruct (applyInput_controlInput pitch yaw 0 0.8 this) as (Ha & Ht & Hv & Hc & _).
  cbv zeta in *. rewrite Ha, Ht, Hv, Hc.
  destruct (angularVelocity (physicsEngine this)) as [ax ay az].
  cbn [Vector3.x Vector3.y Vector3.z].
  split; [reflexivity |]. split; [reflexivity |]. split; [ring |].
  split; [reflexivity |].
  intros Hp. destruct (Hrel Hp) as [-> ->]. f_equal; ring.
Qed.

(** X13. One touch inside the canvas steers by at most 0.02 about each of
    the pitch and yaw axes, not at all about the roll axis, and stores the
    thrust 0.7; a touch at the centre of the canvas does not steer. *)
Theorem handleTouchInput_single (clientWidth clientHeight : R) (type : string)
    (touch : Touch) (this : GameEngine) :
  0 < clientWidth -> 0 < clientHeight ->
  0 <= clientX touch <= clientWidth ->
  0 <= clientY touch <= clientHeight ->
  let this' := handleTouchInput clientWidth clientHeight type [touch] this in
  let av := angularVelocity (physicsEngine this) in
  let av' := angularVelocity (physicsEngine this') in
  Rabs (Vector3.x av' - Vector3.x av) <= 0.02 /\
  Rabs (Vector3.y av' - Vector3.y av) <= 0.02 /\
  Vector3.z av' = Vector3.z av /\
  prop (lastControlInput (physicsEngine this')) "thrust" = number 0.7 /\
  velocity (physicsEngine this') = velocity (physicsEngine this) /\
  (clientX touch = clientWidth / 2 -> clientY touch = clientHeight / 2 -> av' = av).
Proof.
  intros HW HH [Hx0 Hx1] [Hy0 Hy1]. cbv zeta. unfold handleTouchInput.
  match goal with
  | |- context [applyInput (controlInput ?p ?y ?r ?t) this] =>
      destruct (applyInput_controlInput p y r t this) as (Ha & Ht & Hv & _)
  end.
  cbv zeta in *. rewrite Ha, Ht, Hv.
  destruct (angularVelocity (physicsEngine this)) as [ax ay az].
  cbn [Vector3.x Vector3.y Vector3.z].
  pose proof (Rinv_0_lt_compat _ HW) as HiW.
  pose proof (Rinv_0_lt_compat _ HH) as HiH.
  assert (EW : clientWidth * / clientWidth = 1) by (field; lra).
  assert (EH : clientHeight * / clientHeight = 1) by (field; lra).
  assert (Hqx : 0 <= clientX touch / clientWidth <= 1) by (unfold Rdiv; split; nra).
  assert (Hqy : 0 <= clientY touch / clientHeight <= 1) by (unfold Rdiv; split; nra).
  split; [apply Rabs_le; lra |]. split; [apply Rabs_le; lra |].
  split; [lra |]. split; [reflexivity |]. split; [reflexivity |].
  intros -> ->. f_equal; field; lra.
Qed.

(** X14. [handleTouchInput] steers with exactly one touch: with none (the
    end of a gesture) or with several it leaves the engine as it is, so
    lifting the finger does not cut the thrust. *)
Theorem handleTouchInput_ignored (clientWidth clientHeight : R) (type : string)
    (touches : list Touch) (this : GameEngine) :
  length touches <> 1%nat ->
  handleTouchInput clientWidth clientHeight type touches this = this.
Proof.
  intros Hlen. destruct touches as [| t [| t' touches]]; cbn in *; congruence.
Qed.

(** ** Input manager (the class [InputManager]) *)

Lemma setPressedKeys_same (this : InputManager) :
  setPressedKeys (pressedKeys this) this = this.
Proof. destruct this. reflexivity. Qed.

Lemma handleKeyDown_pressed (code : string) (this : InputManager) :
  code ∈ pressedKeys this -> handleKeyDown code this = (this, []).
Proof. intros H. unfold handleKeyDown. rewrite decide_True by exact H. reflexivity. Qed.

Lemma handleKeyDown_fresh (code : string) (this : InputManager) :
  code ∉ pressedKeys this ->
  handleKeyDown code this
  = (setPressedKeys ({[code]} ∪ pressedKeys this) this,
     if hasOnKey this then [onKey (mappedKey code) true] else []).
Proof.
  intros H. unfold handleKeyDown. rewrite decide_False by exact H.
  unfold triggerKeyEvent. destruct this as [? ? ? []]; reflexivity.
Qed.

Lemma handleKeyDown_held (code : string) (this : InputManager) :
  code ∈ pressedKeys (handleKeyDown code this).1.
Proof.
  destruct (decide (code ∈ pressedKeys this)) as [H | H].
  - rewrite (handleKeyDown_pressed _ _ H). exact H.
  - rewrite (handleKeyDown_fresh _ _ H). cbn [fst pressedKeys setPressedKeys].
    apply elem_of_union_l, elem_of_singleton. reflexivity.
Qed.

Lemma keyMap_own (code name : string) :
  keyMap !! code = Some name -> name <> EmptyString /\ code ∉ objectPrototypeNames.
Proof.
  unfold keyMap. intros H.
  repeat (apply lookup_insert_Some in H as [[<- <-] | [_ H]];
          [split; [discriminate | apply (bool_decide_unpack _); vm_compute; exact I] |]).
  apply lookup_singleton_Some in H as [<- <-].
  split; [discriminate | apply (bool_decide_unpack _); vm_compute; exact I].
Qed.

Lemma mappedKey_string (code : string) :
  code ∉ objectPrototypeNames ->
  mappedKey code = str (default (toLowerCase code) (keyMap !! code)).
Proof.
  intros H. unfold mappedKey.
  destruct (keyMap !! code) as [name |] eqn:E.
  - destruct (keyMap_own _ _ E) as [Hne _].
    destruct name; [contradiction | reflexivity].
  - rewrite bool_decide_eq_false_2 by exact H. reflexivity.
Qed.

Lemma mappedKey_inherited (code : string) :
  code ∈ objectPrototypeNames -> mappedKey code = inherited code.
Proof.
  intros H. unfold mappedKey.
  destruct (keyMap !! code) as [name |] eqn:E.
  - destruct (keyMap_own _ _ E) as [_ Hout]. contradiction.
  - rewrite bool_decide_eq_true_2 by exact H. reflexivity.
Qed.

(** X15. A key that is held sends one press: [handleKeyDown] records the
    code and calls [onKey] once, and while the code is recorded every
    further key-down of it (the repeats of the keyboard) calls nothing
    and changes nothing. The key that [onKey] receives, for a code of
    ASCII characters, is the name in [keyMap] if the code is one of its
    seven keys, the property of [Object.prototype] if the code names one
    (so no string), and else the code in lower case. *)
Theorem handleKeyDown_repeat (code : string) (this : InputManager) :
  code ∈ pressedKeys (handleKeyDown code this).1 /\
  handleKeyDown code (handleKeyDown code this).1
  = ((handleKeyDown code this).1, []) /\
  (isAscii code = true -> code ∉ pressedKeys this -> hasOnKey this = true ->
   (handleKeyDown code this).2 = [onKey (mappedKey code) true] /\
   (forall name, keyMap !! code = Some name -> mappedKey code = str name) /\
   (code ∈ objectPrototypeNames -> mappedKey code = inherited code) /\
   (keyMap !! code = None -> code ∉ objectPrototypeNames ->
    mappedKey code = str (toLowerCase code))).
Proof.
  split; [apply handleKeyDown_held |].
  split; [apply handleKeyDown_pressed, handleKeyDown_held |].
  intros _ H Hk. rewrite (handleKeyDown_fresh _ _ H), Hk.
  split; [reflexivity |]. split; [| split].
  - intros name E. destruct (keyMap_own _ _ E) as [_ Hout].
    rewrite (mappedKey_string _ Hout), E. reflexivity.
  - apply mappedKey_inherited.
  - intros E Hout. rewrite (mappedKey_string _ Hout), E. reflexivity.
Qed.

(** X16. Press and release are a round trip: from a manager that does not
    hold the code (of ASCII characters), a key-down followed by a key-up
    gives the manager back and calls [onKey] with the same key, pressed
    and then released; a key-up of a code that is not held calls
    nothing. *)
Theorem handleKey_round_trip (code : string) (this : InputManager) :
  isAscii code = true ->
  code ∉ pressedKeys this ->
  (handleKeyUp code (handleKeyDown code this).1).1 = this /\
  (hasOnKey this = true ->
   (handleKeyDown code this).2 ++ (handleKeyUp code (handleKeyDown code this).1).2
   = [onKey (mappedKey code) true; onKey (mappedKey code) false]) /\
  handleKeyUp code this = (this, []).
Proof.
  intros _ H. rewrite (handleKeyDown_fresh _ _ H). cbn [fst snd].
  unfold handleKeyUp.
  rewrite (decide_False (P := code ∈ pressedKeys this)) by exact H.
  cbn [pressedKeys setPressedKeys].
  rewrite decide_True by set_solver.
  cbn [fst snd]. split; [| split; [| reflexivity]].
  - destruct this as [t keys ht hk]. unfold setPressedKeys. cbn. f_equal.
    cbn in H. apply set_eq. intros x.
    rewrite elem_of_difference, elem_of_union, elem_of_singleton.
    split; [intros [[-> | Hx] Hne]; [contradiction | exact Hx] |].
    intros Hx. split; [right; exact Hx | intros ->; contradiction].
  - intros Hk. unfold triggerKeyEvent.
    cbn [hasOnKey setPressedKeys]. rewrite Hk. reflexivity.
Qed.

Lemma calls_nil (clientWidth clientHeight : R) (this : GameEngine) :
  calls clientWidth clientHeight [] this = this.
Proof. reflexivity. Qed.

Lemma key_hold_calls_once (clientWidth clientHeight : R) (code : string)
    (manager : InputManager) (this : GameEngine) (n : nat) :
  hasOnKey manager = true ->
  code ∉ pressedKeys manager ->
  Nat.iter (S n)
    (fun s => dispatch clientWidth clientHeight (handleKeyDown code s.1) s.2)
    (manager, this)
  = ((handleKeyDown code manager).1,
     call clientWidth clientHeight (onKey (mappedKey code) true) this).
Proof.
  intros Hk Hfresh. induction n as [| n IH].
  - cbn [Nat.iter nat_rect fst snd]. unfold dispatch.
    rewrite (handleKeyDown_fresh _ _ Hfresh), Hk. reflexivity.
  - change (Nat.iter (S (S n)) ?f ?x) with (f (Nat.iter (S n) f x)).
    rewrite IH. cbn [fst snd].
    rewrite (handleKeyDown_pressed code _ (handleKeyDown_held code manager)).
    reflexivity.
Qed.

(** X17. Holding a key steers once. On the wired engine, any number
    [n + 1] of key-down events of one code (of ASCII characters), from a
    manager that does not hold it, leave the manager holding the code
    and have on the engine the effect of one call of [handleKeyInput]
    with the name in [keyMap] or else the code in lower case: the repeats
    of the keyboard add no impulse. A code that names a property of
    [Object.prototype] leaves the engine as it was. *)
Theorem key_hold_steers_once (clientWidth clientHeight : R) (code : string)
    (manager : InputManager) (this : GameEngine) (n : nat) :
  isAscii code = true ->
  hasOnKey manager = true ->
  code ∉ pressedKeys manager ->
  let after :=
    Nat.iter (S n)
      (fun s => dispatch clientWidth clientHeight (handleKeyDown code s.1) s.2)
      (manager, this) in
  after.1 = (handleKeyDown code manager).1 /\
  (code ∉ objectPrototypeNames ->
   after.2 = handleKeyInput (default (toLowerCase code) (keyMap !! code)) true this) /\
  (code ∈ objectPrototypeNames -> after.2 = this).
Proof.
  intros _ Hk Hfresh. cbv zeta.
  rewrite (key_hold_calls_once clientWidth clientHeight code manager this n Hk Hfresh).
  cbn [fst snd]. split; [reflexivity |]. split.
  - intros Hout. rewrite (mappedKey_string _ Hout). reflexivity.
  - intros Hin. rewrite (mappedKey_inherited _ Hin). reflexivity.
Qed.

Lemma mapHas_mapSet (k k' : Z) (v : Touch) (m : list (Z * Touch)) :
  mapHas k (mapSet k' v m) = (Z.eqb k' k || mapHas k m)%bool.
Proof.
  unfold mapHas. induction m as [| [k0 v0] m IH]; cbn [mapSet List.existsb fst].
  - reflexivity.
  - destruct (Z.eqb_spec k0 k') as [-> | Hne]; cbn [List.existsb fst].
    + destruct (Z.eqb k' k); reflexivity.
    + rewrite IH. destruct (Z.eqb k0 k), (Z.eqb k' k); reflexivity.
Qed.

Lemma mapHas_mapDelete (k k' : Z) (m : list (Z * Touch)) :
  mapHas k (mapDelete k' m) = (negb (Z.eqb k k') && mapHas k m)%bool.
Proof.
  unfold mapHas, mapDelete.
  induction m as [| [k0 v0] m IH]; cbn [List.filter List.existsb fst].
  - rewrite andb_false_r. reflexivity.
  - destruct (Z.eqb_spec k0 k') as [-> | Hne]; cbn [negb List.existsb fst].
    + rewrite IH. rewrite (Z.eqb_sym k' k).
      destruct (Z.eqb k k'); reflexivity.
    + rewrite IH. destruct (Z.eqb_spec k0 k) as [-> | Hne'].
      * destruct (Z.eqb_spec k k'); [congruence | reflexivity].
      * reflexivity.
Qed.

Lemma fold_mapSet_has (changed : list Touch) :
  forall (m : list (Z * Touch)) (k : Z),
    mapHas k (List.fold_left (fun m t => mapSet (identifier t) t m) changed m)
    = (List.existsb (fun t => Z.eqb (identifier t) k) changed || mapHas k m)%bool.
Proof.
  induction changed as [| t changed IH]; intros m k;
    cbn [List.fold_left List.existsb]; [reflexivity |].
  rewrite IH, mapHas_mapSet.
  destruct (Z.eqb (identifier t) k), (List.existsb _ changed); reflexivity.
Qed.

Lemma fold_mapDelete_has (changed : list Touch) :
  forall (m : list (Z * Touch)) (k : Z),
    mapHas k (List.fold_left (fun m t => mapDelete (identifier t) m) changed m)
    = (negb (List.existsb (fun t => Z.eqb (identifier t) k) changed)
       && mapHas k m)%bool.
Proof.
  induction changed as [| t changed IH]; intros m k;
    cbn [List.fold_left List.existsb negb andb]; [reflexivity |].
  rewrite IH, mapHas_mapDelete. rewrite (Z.eqb_sym k).
  destruct (Z.eqb (identifier t) k), (List.existsb _ changed); reflexivity.
Qed.

(** X18. The touches the manager holds follow the events: after a touch
    start or a touch move an identifier is held exactly when it was held
    before or is one of the changed touches; after a touch end exactly
    when it was held before and is none of them; after a cancel none is.
    With the callback set, each start passes on all touches held. *)
Theorem activeTouches_follow (changed : list Touch) (this : InputManager)
    (k : Z) :
  let among := List.existsb (fun t => Z.eqb (identifier t) k) changed in
  mapHas k (activeTouches (handleTouchStart changed this).1)
  = (among || mapHas k (activeTouches this))%bool /\
  mapHas k (activeTouches (handleTouchMove changed this).1)
  = (among || mapHas k (activeTouches this))%bool /\
  mapHas k (activeTouches (handleTouchEnd changed this).1)
  = (negb among && mapHas k (activeTouches this))%bool /\
  mapHas k (activeTouches (handleTouchCancel this).1) = false /\
  (hasOnTouch this = true ->
   (handleTouchStart changed this).2
   = [onTouch "start" (mapValues (activeTouches (handleTouchStart changed this).1))]).
Proof.
  unfold handleTouchStart, handleTouchMove, handleTouchEnd, handleTouchCancel.
  cbv zeta. cbn [fst snd activeTouches setActiveTouches].
  rewrite !fold_mapSet_has, fold_mapDelete_has.
  repeat split. intros H. unfold triggerTouchEvent.
  cbn [hasOnTouch setActiveTouches]. rewrite H. reflexivity.
Qed.

(** X19. The mouse steers like one finger. With the callback set, a mouse
    press or a move while pressed reaches the engine as a gesture of the
    single touch 0 at the mouse position, whatever touches are held; the
    release reaches it with no touch and changes nothing; without a press
    before, a move or a release calls nothing. *)
Theorem mouse_steering (clientWidth clientHeight x y x' y' : R)
    (manager : InputManager) (this : GameEngine) :
  hasOnTouch manager = true ->
  calls clientWidth clientHeight (handleMouseDown x y manager).2 this
  = handleTouchInput clientWidth clientHeight "start" [createMockTouch x y 0] this /\
  calls clientWidth clientHeight
    (handleMouseMove x' y' (handleMouseDown x y manager).1).2 this
  = handleTouchInput clientWidth clientHeight "move" [createMockTouch x' y' 0] this /\
  calls clientWidth clientHeight
    (handleMouseUp (handleMouseDown x y manager).1).2 this = this /\
  (mapHas 0 (activeTouches manager) = false ->
   handleMouseMove x y manager = (manager, []) /\
   handleMouseUp manager = (manager, [])).
Proof.
  intros Hcb.
  assert (Hdown : mapHas 0 (activeTouches (handleMouseDown x y manager).1) = true).
  { unfold handleMouseDown. cbn [fst activeTouches setActiveTouches].
    rewrite mapHas_mapSet. reflexivity. }
  split; [| split; [| split]].
  - unfold handleMouseDown, triggerTouchEvent. cbn [snd hasOnTouch setActiveTouches].
    rewrite Hcb. reflexivity.
  - unfold handleMouseMove. rewrite Hdown.
    unfold triggerTouchEvent, handleMouseDown.
    cbn [fst snd hasOnTouch setActiveTouches]. rewrite Hcb. reflexivity.
  - unfold handleMouseUp. rewrite Hdown.
    unfold triggerTouchEvent, handleMouseDown.
    cbn [fst snd hasOnTouch setActiveTouches]. rewrite Hcb. reflexivity.
  - intros Hno. unfold handleMouseMove, handleMouseUp. rewrite Hno.
    split; reflexivity.
Qed.

(** X20. A second finger stops the steering. From a manager that holds no
    touch, with the callback set: the first finger down reaches the
    engine alone and steers; a second finger down reaches it together
    with the first, and the engine ignores the two; when the second
    finger lifts, the engine is called with the first one alone again. *)
Theorem second_finger (clientWidth clientHeight : R) (t1 t2 : Touch)
    (manager : InputManager) (this : GameEngine) :
  activeTouches manager = [] ->
  hasOnTouch manager = true ->
  identifier t1 <> identifier t2 ->
  (handleTouchStart [t1] manager).2 = [onTouch "start" [t1]] /\
  (handleTouchStart [t2] (handleTouchStart [t1] manager).1).2
  = [onTouch "start" [t1; t2]] /\
  calls clientWidth clientHeight
    (handleTouchStart [t2] (handleTouchStart [t1] manager).1).2 this = this /\
  (handleTouchEnd [t2]
     (handleTouchStart [t2] (handleTouchStart [t1] manager).1).1).2
  = [onTouch "end" [t1]].
Proof.
  intros Hempty Hcb Hne.
  unfold handleTouchStart, handleTouchEnd, triggerTouchEvent.
  cbn [fst snd hasOnTouch activeTouches setActiveTouches List.fold_left].
  rewrite Hempty, Hcb. cbn [mapSet].
  destruct (Z.eqb_spec (identifier t1) (identifier t2)) as [E | _];
    [contradiction |].
  cbn [mapSet mapValues List.map snd mapDelete List.filter fst negb].
  destruct (Z.eqb_spec (identifier t1) (identifier t2)) as [E | _];
    [contradiction |].
  rewrite Z.eqb_refl. cbn [negb List.map snd]. repeat split.
Qed.

(** ** The frame *)

Lemma render_glDrawn dt transform ss perfNow this g :
  glDrawn (render dt transform ss perfNow this g).2
  = match shaderProgram this with
    | Some _ =>
        glDrawn g
        ++ [mkDrawCall 3 0 (Cloaking.active (cloaking ss))
              (if Cloaking.active (cloaking ss)
               then (SRC_ALPHA, ONE_MINUS_SRC_ALPHA)
               else glBlendFunc g)]
    | None => glDrawn g
    end.
Proof.
  unfold render. destruct (shaderProgram this); [| reflexivity].
  cbv zeta. destruct (Cloaking.active (cloaking ss)); gl_frame; reflexivity.
Qed.

Lemma frame_guard_paused (t now renderTime : R) (this : GameEngine) :
  GameEngine_render t now renderTime (pause this) = pause this.
Proof. reflexivity. Qed.

(** X21. [GameEngine.render] does nothing at all, not even reading the
    clock into [lastTime], while the engine is paused or has no context
    or no render engine. *)
Theorem frame_guard (currentTime now renderTime : R) (this : GameEngine) :
  isRunning this = false \/ gl_context this = None \/ renderEngine this = None ->
  GameEngine_render currentTime now renderTime this = this.
Proof.
  unfold GameEngine_render.
  intros [-> | [-> | ->]]; [reflexivity | |].
  - destruct (isRunning this); reflexivity.
  - destruct (isRunning this), (gl_context this); reflexivity.
Qed.

Lemma GameEngine_render_running currentTime now renderTime this g engine :
  isRunning this = true -> gl_context this = Some g ->
  renderEngine this = Some engine ->
  GameEngine_render currentTime now renderTime this
  = let dt := (currentTime - lastTime this) / 1000.0 in
    let s := update dt (systemStates this) (craftTransform this) now
               (physicsEngine this) in
    let r := render dt s.2 (systemStates this) renderTime engine g in
    {| gl_context := Some r.2;
       physicsEngine := s.1;
       renderEngine := Some r.1;
       lastTime := currentTime;
       deltaTime := dt;
       isRunning := true;
       craftTransform := s.2;
       currentMission := currentMission this;
       systemStates := systemStates this;
       console := console this |}.
Proof. intros H1 H2 H3. unfold GameEngine_render. rewrite H1, H2, H3. reflexivity. Qed.

(** X22. The time spent paused is not simulated. On an engine with a
    context and a render engine, a frame during the pause changes
    nothing, and the first frame after [resume] at time [t1] steps the
    physics by [(t2 - t1) / 1000] seconds, [t2] being its own time,
    whatever the time of the frame before the pause. *)
Theorem pause_resume_time (t t1 t2 now renderTime : R) (this : GameEngine)
    (g : WebGL2RenderingContext) (engine : RenderEngine) :
  gl_context this = Some g ->
  renderEngine this = Some engine ->
  GameEngine_render t now renderTime (pause this) = pause this /\
  deltaTime (GameEngine_render t2 now renderTime (resume t1 (pause this)))
  = (t2 - t1) / 1000 /\
  lastTime (GameEngine_render t2 now renderTime (resume t1 (pause this))) = t2 /\
  physicsEngine (GameEngine_render t2 now renderTime (resume t1 (pause this)))
  = (update ((t2 - t1) / 1000) (systemStates this) (craftTransform this) now
       (physicsEngine this)).1 /\
  craftTransform (GameEngine_render t2 now renderTime (resume t1 (pause this)))
  = (update ((t2 - t1) / 1000) (systemStates this) (craftTransform this) now
       (physicsEngine this)).2.
Proof.
  intros Hg He. split; [apply frame_guard_paused |].
  replace ((t2 - t1) / 1000) with ((t2 - t1) / 1000.0) by lra.
  rewrite (GameEngine_render_running t2 now renderTime (resume t1 (pause this))
             g engine eq_refl Hg He).
  cbn. repeat split; reflexivity.
Qed.

(** X23. A running frame always steps the physics with the time since
    the last frame, and draws once or not at all: the context has one
    more draw call of three indices when the render engine has its
    shader program, and the same draw calls when it has none. The
    subsystem records, the mission and the console are not touched. *)
Theorem frame_steps_and_draws (currentTime now renderTime : R)
    (this : GameEngine) (g : WebGL2RenderingContext) (engine : RenderEngine) :
  isRunning this = true ->
  gl_context this = Some g ->
  renderEngine this = Some engine ->
  let this' := GameEngine_render currentTime now renderTime this in
  let dt := (currentTime - lastTime this) / 1000 in
  (physicsEngine this', craftTransform this')
  = update dt (systemStates this) (craftTransform this) now (physicsEngine this) /\
  lastTime this' = currentTime /\
  (glDrawn <$> gl_context this')
  = Some (glDrawn g
          ++ match shaderProgram engine with
             | Some _ =>
                 [mkDrawCall 3 0 (Cloaking.active (cloaking (systemStates this)))
                    (if Cloaking.active (cloaking (systemStates this))
                     then (SRC_ALPHA, ONE_MINUS_SRC_ALPHA)
                     else glBlendFunc g)]
             | None => []
             end) /\
  systemStates this' = systemStates this /\
  currentMission this' = currentMission this /\
  console this' = console this.
Proof.
  intros Hr Hg He. cbv zeta.
  replace ((currentTime - lastTime this) / 1000)
    with ((currentTime - lastTime this) / 1000.0) by lra.
  rewrite (GameEngine_render_running _ _ _ _ _ _ Hr Hg He). cbv zeta.
  cbn [physicsEngine craftTransform lastTime gl_context systemStates
       currentMission console fmap option_fmap option_map].
  split; [symmetry; apply surjective_pairing |]. split; [reflexivity |].
  split; [| repeat split].
  rewrite render_glDrawn. destruct (shaderProgram engine); [reflexivity |].
  rewrite app_nil_r. reflexivity.
Qed.

Lemma applyInput_frame (input : ControlInput) (this : GameEngine) :
  craftTransform (applyInput input this) = craftTransform this /\
  systemStates (applyInput input this) = systemStates this.
Proof. split; reflexivity. Qed.

Lemma handleKeyInput_frame (key : string) (pressed : bool) (this : GameEngine) :
  craftTransform (handleKeyInput key pressed this) = craftTransform this /\
  systemStates (handleKeyInput key pressed this) = systemStates this.
Proof.
  unfold handleKeyInput.
  repeat (destruct (String.eqb _ _); [apply applyInput_frame |]).
  split; reflexivity.
Qed.

Lemma handleTouchInput_frame clientWidth clientHeight type touches this :
  craftTransform (handleTouchInput clientWidth clientHeight type touches this)
  = craftTransform this /\
  systemStates (handleTouchInput clientWidth clientHeight type touches this)
  = systemStates this.
Proof.
  unfold handleTouchInput.
  destruct touches as [| t [| t' touches]]; split; reflexivity.
Qed.

Lemma nearUnit_positive (q : Quaternion.t) : nearUnit q -> 0 < norm q.
Proof. unfold nearUnit. intros H. apply Rabs_bound in H. lra. Qed.

Lemma unit_nearUnit (q : Quaternion.t) : norm q = 1 -> nearUnit q.
Proof. apply within_tolerance_of_unit. Qed.

Lemma GameEngine_render_frame currentTime now renderTime this :
  nearUnit (rotation (craftTransform this)) ->
  nearUnit (rotation (craftTransform (GameEngine_render currentTime now renderTime this))) /\
  scale (craftTransform (GameEngine_render currentTime now renderTime this))
  = scale (craftTransform this) /\
  systemStates (GameEngine_render currentTime now renderTime this)
  = systemStates this.
Proof.
  intros Hunit. unfold GameEngine_render.
  destruct (isRunning this); [| repeat split; exact Hunit].
  destruct (gl_context this); [| repeat split; exact Hunit].
  destruct (renderEngine this); [| repeat split; exact Hunit].
  cbn [craftTransform systemStates].
  split; [apply unit_nearUnit, update_normalizes, nearUnit_positive, Hunit |].
  split; [apply update_scale | reflexivity].
Qed.

Lemma handleEvent_invariant (e : Event) (this : GameEngine) :
  nearUnit (rotation (craftTransform this)) ->
  nearUnit (rotation (craftTransform (handleEvent this e))) /\
  scale (craftTransform (handleEvent this e)) = scale (craftTransform this) /\
  systemStates (handleEvent this e) = systemStates this.
Proof.
  intros Hunit. destruct e as [c n r | missionId | key pressed | w h ty ts | | t];
    cbn [handleEvent].
  - apply GameEngine_render_frame, Hunit.
  - destruct (getMissionById missionId) as [mission |] eqn:E.
    + rewrite (startMission_known _ _ _ E). cbn [craftTransform systemStates
        rotation scale].
      split; [apply unit_nearUnit; exact norm_spawn | split; reflexivity].
    + rewrite (startMission_not_found _ _ E). cbn [craftTransform systemStates].
      split; [exact Hunit | split; reflexivity].
  - destruct (handleKeyInput_frame key pressed this) as [-> ->].
    split; [exact Hunit | split; reflexivity].
  - destruct (handleTouchInput_frame w h ty ts this) as [-> ->].
    split; [exact Hunit | split; reflexivity].
  - split; [exact Hunit | split; reflexivity].
  - split; [exact Hunit | split; reflexivity].
Qed.

(** X24. Whatever the player and the host do, in any order and number
    (frames at any clock values, mission starts with any id, key input,
    touch input on a canvas of positive width and height, pause and
    resume), an engine whose craft has an orientation of norm within
    1e-4 of 1 keeps it so, and never changes the scale of the craft nor
    the subsystem records. *)
Theorem engine_invariants (events : list Event) :
  forall this : GameEngine,
    Forall eventInRange events ->
    nearUnit (rotation (craftTransform this)) ->
    nearUnit (rotation (craftTransform (handleEvents events this))) /\
    scale (craftTransform (handleEvents events this)) = scale (craftTransform this) /\
    systemStates (handleEvents events this) = systemStates this.
Proof.
  induction events as [| e events IH]; intros this Hrange Hunit.
  - repeat split. exact Hunit.
  - apply Forall_cons in Hrange as [_ Hrange].
    destruct (handleEvent_invariant e this Hunit) as (Hn & Hs & Hss).
    destruct (IH _ Hrange Hn) as (Hn' & Hs' & Hss').
    change (handleEvents (e :: events) this)
      with (handleEvents events (handleEvent this e)).
    rewrite Hs', Hss', Hs, Hss. repeat split. exact Hn'.
Qed.

(** ** Graphics pipeline, continued *)

Lemma fill_16 (a : list R) (v : R) :
  length a = 16%nat -> fill a v = replicate 16 v.
Proof. intros H. unfold fill. rewrite H. reflexivity. Qed.

Lemma render_viewMatrix dt transform ss perfNow this g program :
  shaderProgram this = Some program ->
  length (viewMatrix this) = 16%nat ->
  viewMatrix (render dt transform ss perfNow this g).1 = cameraMatrix.
Proof.
  intros Hp Hlen. unfold render. rewrite Hp. cbv zeta. cbn [fst viewMatrix].
  rewrite (fill_16 _ _ Hlen). reflexivity.
Qed.

(** X25. Without its shader program [render] is a no-op: the engine and
    the context come back unchanged, so no draw call is issued and the
    blending state stays what it was even when the cloak is active. With
    the program, the view matrix it leaves is always the camera matrix
    (identity moved back by 5), and the projection matrix, the viewport
    and the size of the canvas are never changed. *)
Theorem render_guard (dt : R) (transform : Transform) (ss : SystemState)
    (perfNow : R) (this : RenderEngine) (g : WebGL2RenderingContext) :
  length (viewMatrix this) = 16%nat ->
  (shaderProgram this = None -> render dt transform ss perfNow this g = (this, g)) /\
  (shaderProgram this <> None ->
   viewMatrix (render dt transform ss perfNow this g).1 = cameraMatrix) /\
  projectionMatrix (render dt transform ss perfNow this g).1 = projectionMatrix this /\
  glViewport (render dt transform ss perfNow this g).2 = glViewport g /\
  canvasWidth (render dt transform ss perfNow this g).2 = canvasWidth g /\
  canvasHeight (render dt transform ss perfNow this g).2 = canvasHeight g.
Proof.
  intros Hlen. split; [apply render_uninitialized |]. split.
  - destruct (shaderProgram this) as [program |] eqn:E; [| congruence].
    intros _. apply (render_viewMatrix _ _ _ _ _ _ program E Hlen).
  - split; [apply render_projectionMatrix |].
    split; [| apply render_canvas].
    unfold render. destruct (shaderProgram this); [| reflexivity].
    cbv zeta. destruct (Cloaking.active (cloaking ss)); gl_frame; reflexivity.
Qed.

Lemma NoDup_seven (A : Type) (a b c d e f h : A) :
  NoDup [a; b; c; d; e; f; h] ->
  (a <> b /\ a <> c /\ a <> d /\ a <> e /\ a <> f /\ a <> h) /\
  (b <> c /\ b <> d /\ b <> e /\ b <> f /\ b <> h) /\
  (c <> d /\ c <> e /\ c <> f /\ c <> h) /\
  (d <> e /\ d <> f /\ d <> h) /\
  (e <> f /\ e <> h) /\ f <> h.
Proof.
  intros H.
  repeat match goal with
         | H : NoDup (_ :: _) |- _ => apply NoDup_cons in H as [? H]
         end.
  repeat match goal with
         | H : _ ∉ _ :: _ |- _ => apply not_elem_of_cons in H as [? H]
         end.
  repeat split; assumption.
Qed.

Section UniformUpload.

Variables (location : option WebGLUniformLocation) (v : UniformValue)
          (g : WebGL2RenderingContext).

Lemma uniform_glUniforms :
  glUniforms (gl.uniform location v g) = upload location v (glUniforms g).
Proof. destruct location; reflexivity. Qed.

Lemma uniform_glProgram : glProgram (gl.uniform location v g) = glProgram g.
Proof. destruct location; reflexivity. Qed.

End UniformUpload.

Lemma render_glUniforms dt transform ss perfNow this g program :
  shaderProgram this = Some program ->
  length (viewMatrix this) = 16%nat ->
  glProgram (render dt transform ss perfNow this g).2 = Some program /\
  glUniforms (render dt transform ss perfNow this g).2
  = upload (uniformLocation this "uPlasmaIntensity")
      (Uniform1f (plasmaRate (propulsion ss)))
      (upload (uniformLocation this "uCloakingIntegrity")
         (Uniform1f (Cloaking.integrity (cloaking ss)))
         (upload (uniformLocation this "uCloakingActive")
            (Uniform1i (if Cloaking.active (cloaking ss) then 1 else 0))
            (upload (uniformLocation this "uTime") (Uniform1f (perfNow * 0.001))
               (upload (uniformLocation this "uProjectionMatrix")
                  (UniformMatrix4fv false (projectionMatrix this))
                  (upload (uniformLocation this "uViewMatrix")
                     (UniformMatrix4fv false cameraMatrix)
                     (upload (uniformLocation this "uModelMatrix")
                        (UniformMatrix4fv false identityMatrix)
                        (glUniforms g))))))).
Proof.
  intros Hp Hlen. unfold render. rewrite Hp. cbv zeta.
  unfold gl.uniformMatrix4fv, gl.uniform1f, gl.uniform1i, gl.enable, gl.disable.
  destruct (Cloaking.active (cloaking ss));
    cbn [snd glProgram glUniforms gl.bindBuffer gl.vertexAttribPointer
         gl.enableVertexAttribArray gl.setCapability gl.blendFunc
         gl.drawElements];
    rewrite !uniform_glUniforms, !uniform_glProgram;
    cbn [glProgram glUniforms gl.useProgram viewMatrix projectionMatrix];
    rewrite (fill_16 _ _ Hlen); split; reflexivity.
Qed.

(** X26. What the shader is given. When the engine has its program and
    the seven uniforms have distinct locations, after [render] the
    program is in use and the uniforms hold: the identity as model
    matrix, the camera matrix as view matrix, the stored projection
    matrix, the clock in seconds, 1 or 0 as the cloaking flag is set or
    not, the cloak integrity and the plasma rate. *)
Theorem render_uniforms (dt : R) (transform : Transform) (ss : SystemState)
    (perfNow : R) (this : RenderEngine) (g : WebGL2RenderingContext)
    (program : WebGLProgram) (lM lV lP lT lA lI lR : WebGLUniformLocation) :
  shaderProgram this = Some program ->
  length (viewMatrix this) = 16%nat ->
  uniformLocation this "uModelMatrix" = Some lM ->
  uniformLocation this "uViewMatrix" = Some lV ->
  uniformLocation this "uProjectionMatrix" = Some lP ->
  uniformLocation this "uTime" = Some lT ->
  uniformLocation this "uCloakingActive" = Some lA ->
  uniformLocation this "uCloakingIntegrity" = Some lI ->
  uniformLocation this "uPlasmaIntensity" = Some lR ->
  NoDup [lM; lV; lP; lT; lA; lI; lR] ->
  let g' := (render dt transform ss perfNow this g).2 in
  glProgram g' = Some program /\
  glUniforms g' !! lM = Some (UniformMatrix4fv false identityMatrix) /\
  glUniforms g' !! lV = Some (UniformMatrix4fv false cameraMatrix) /\
  glUniforms g' !! lP = Some (UniformMatrix4fv false (projectionMatrix this)) /\
  glUniforms g' !! lT = Some (Uniform1f (perfNow * 0.001)) /\
  glUniforms g' !! lA
  = Some (Uniform1i (if Cloaking.active (cloaking ss) then 1 else 0)) /\
  glUniforms g' !! lI = Some (Uniform1f (Cloaking.integrity (cloaking ss))) /\
  glUniforms g' !! lR = Some (Uniform1f (plasmaRate (propulsion ss))).
Proof.
  intros Hp Hlen HM HV HP HT HA HI HR Hnd. cbv zeta.
  apply NoDup_seven in Hnd
    as ((? & ? & ? & ? & ? & ?) & (? & ? & ? & ? & ?) & (? & ? & ? & ?)
        & (? & ? & ?) & (? & ?) & ?).
  destruct (render_glUniforms dt transform ss perfNow this g program Hp Hlen)
    as [-> ->].
  rewrite HM, HV, HP, HT, HA, HI, HR. unfold upload.
  split; [reflexivity |].
  repeat split;
    repeat first [ apply lookup_insert_eq
                 | rewrite lookup_insert_ne by congruence ].
Qed.

Lemma focal_cotangent : tan (PI * 0.5 - 0.5 * (PI / 4)) * tan (PI / 8) = 1.
Proof.
  pose proof PI_RGT_0 as Hpi.
  replace (PI * 0.5 - 0.5 * (PI / 4)) with (PI / 2 - PI / 8) by lra.
  pose proof (sin_shift (PI / 8)) as E1.
  pose proof (cos_shift (PI / 8)) as E2.
  assert (0 < sin (PI / 8)) by (apply sin_gt_0; lra).
  assert (0 < cos (PI / 8)) by (apply cos_gt_0; lra).
  unfold tan. rewrite E1, E2. field. split; lra.
Qed.

(** X27. Where a vertex lands. With the matrices [render] uploads
    (identity model, camera view, the perspective matrix of an aspect
    ratio), the vertex shader puts a vertex (x, y, z) at clip
    coordinates (f/aspect * x, f * y, depth, 5 - z) with
    f = tan(pi/2 - pi/8): the camera sits at z = 5 looking down -z; the
    depth passes the clip test exactly for z between -995 and 4.9, that
    is between the near plane 0.1 and the far plane 1000 from the
    camera; and the top of the view is at 22.5 degrees above the axis
    (f * tan(pi/8) = 1), a vertical field of view of 45 degrees. *)
Theorem vertex_clip_position (aspect x y z : R) :
  let f := tan (PI * 0.5 - 0.5 * (PI / 4)) in
  exists depth : R,
    vertexShader identityMatrix cameraMatrix (perspective aspect) (x, y, z)
    = (f / aspect * x, f * y, depth, 5 - z) /\
    (- (5 - z) <= depth <= 5 - z <-> -995 <= z <= 4.9) /\
    (y = (5 - z) * tan (PI / 8) -> f * y = 5 - z).
Proof.
  cbv zeta.
  exists ((0.1 + 1000.0) * (1.0 / (0.1 - 1000.0)) * (z - 5)
          + 0.1 * 1000.0 * (1.0 / (0.1 - 1000.0)) * 2).
  split; [| split].
  - unfold vertexShader, mat4_vec4, mat4_mat4, entry, identityMatrix,
      cameraMatrix, perspective.
    cbn [nth List.flat_map List.map app Nat.mul Nat.add].
    replace 1.0 with 1 by lra.
    f_equal; [f_equal; [f_equal |] |]; ring.
  - split; intros H; lra.
  - intros ->.
    transitivity ((5 - z) * (tan (PI * 0.5 - 0.5 * (PI / 4)) * tan (PI / 8)));
      [ring |].
    rewrite focal_cotangent. ring.
Qed.

Lemma render_glBlend dt transform ss perfNow this g program :
  shaderProgram this = Some program ->
  glBlend (render dt transform ss perfNow this g).2 = Cloaking.active (cloaking ss).
Proof.
  intros Hp. unfold render. rewrite Hp. cbv zeta.
  destruct (Cloaking.active (cloaking ss)); gl_frame; reflexivity.
Qed.

(** X28. The alpha the fragment shader writes is 1 for a craft that is
    not cloaked and [integrity * 0.3 + 0.1] for a cloaked one: between
    0.1 and 0.4 for an integrity in [0,1], and the lower the integrity
    the more transparent. So [render] leaves blending enabled exactly for
    the frames whose fragments are translucent. *)
Theorem cloak_alpha (dt : R) (transform : Transform) (ss : SystemState)
    (perfNow : R) (this : RenderEngine) (g : WebGL2RenderingContext)
    (program : WebGLProgram) (integrity integrity' : R) :
  shaderProgram this = Some program ->
  0 <= Cloaking.integrity (cloaking ss) <= 1 ->
  0 <= integrity <= integrity' -> integrity' <= 1 ->
  fragmentAlpha false integrity = 1 /\
  0.1 <= fragmentAlpha true integrity <= fragmentAlpha true integrity' /\
  fragmentAlpha true integrity' <= 0.4 /\
  (glBlend (render dt transform ss perfNow this g).2 = true
   <-> fragmentAlpha (Cloaking.active (cloaking ss))
         (Cloaking.integrity (cloaking ss)) < 1).
Proof.
  intros Hp Hi Hle Hle'. unfold fragmentAlpha.
  split; [lra |]. split; [lra |]. split; [lra |].
  rewrite (render_glBlend _ _ _ _ _ _ _ Hp).
  destruct (Cloaking.active (cloaking ss)); split; intros H;
    try reflexivity; try discriminate; lra.
Qed.

(** ** Initialization of the render engine *)

Lemma createShaderProgram_Some (d : Driver) (program : WebGLProgram) :
  createShaderProgram d = Some program
  <-> is_Some (createShader d VERTEX_SHADER) /\
      compileStatus d VERTEX_SHADER = true /\
      is_Some (createShader d FRAGMENT_SHADER) /\
      compileStatus d FRAGMENT_SHADER = true /\
      createProgram d = Some program /\
      linkStatus d = true.
Proof.
  unfold createShaderProgram, compileShader.
  destruct (createShader d VERTEX_SHADER), (compileStatus d VERTEX_SHADER),
    (createShader d FRAGMENT_SHADER), (compileStatus d FRAGMENT_SHADER),
    (createProgram d), (linkStatus d); cbn;
    split; try discriminate;
    try (intros (H1 & H2 & H3 & H4 & H5 & H6);
         try discriminate; try (destruct H1; discriminate);
         try (destruct H3; discriminate); congruence).
  intros E. repeat split; eauto. 
Qed.

(** X29. [initialize] succeeds exactly when both shader objects are
    created and compile and the program is created and links. Then the
    engine holds that program, the locations the context gave for the
    seven uniforms, the two buffers (left bound in the context) and the
    perspective matrix of the canvas. Otherwise it fails with "Failed to
    create shader program", the program is [null], everything else and
    the context are as before, and a later [render] does nothing. *)
Theorem initialize_outcome (d : Driver) (this : RenderEngine)
    (g : WebGL2RenderingContext) :
  length (projectionMatrix this) = 16%nat ->
  let '(error, this', g') := initialize d this g in
  (error = None
   <-> is_Some (createShader d VERTEX_SHADER) /\
       compileStatus d VERTEX_SHADER = true /\
       is_Some (createShader d FRAGMENT_SHADER) /\
       compileStatus d FRAGMENT_SHADER = true /\
       is_Some (createProgram d) /\
       linkStatus d = true) /\
  (error = None ->
   shaderProgram this' = createProgram d /\
   is_Some (shaderProgram this') /\
   (forall k : string,
      In k ["uModelMatrix"; "uViewMatrix"; "uProjectionMatrix"; "uTime";
            "uCloakingActive"; "uCloakingIntegrity"; "uPlasmaIntensity"]%string ->
      uniformLocation this' k = getUniformLocation d k) /\
   vertexBuffer this' = createBuffer d 0 /\
   indexBuffer this' = createBuffer d 1 /\
   glArrayBuffer g' = createBuffer d 0 /\
   glElementArrayBuffer g' = createBuffer d 1 /\
   projectionMatrix this' = perspective (canvasWidth g / canvasHeight g)) /\
  (error <> None ->
   error = Some "Failed to create shader program"%string /\
   shaderProgram this' = None /\
   projectionMatrix this' = projectionMatrix this /\
   uniformLocations this' = uniformLocations this /\
   g' = g /\
   forall dt transform ss perfNow,
     render dt transform ss perfNow this' g' = (this', g')).
Proof.
  intros Hlen. unfold initialize.
  destruct (createShaderProgram d) as [program |] eqn:E.
  - apply createShaderProgram_Some in E as (H1 & H2 & H3 & H4 & H5 & H6).
    unfold createGeometry. cbv zeta.
    split; [| split].
    + split; [| reflexivity]. intros _. rewrite H5. repeat split; eauto.
    + intros _. split; [symmetry; exact H5 |]. split; [eauto |].
      split.
      * intros k Hk. unfold updateProjectionMatrix, uniformLocation.
        cbn [uniformLocations].
        destruct Hk as [<- | [<- | [<- | [<- | [<- | [<- | [<- | []]]]]]]];
          reflexivity.
      * split; [reflexivity |]. split; [reflexivity |].
        split; [reflexivity |]. split; [reflexivity |].
        rewrite updateProjectionMatrix_perspective by exact Hlen. reflexivity.
    + intros H. contradiction.
  - split; [| split].
    + split; [discriminate |].
      intros (H1 & H2 & H3 & H4 & [program H5] & H6).
      assert (createShaderProgram d = Some program) as E'
        by (apply createShaderProgram_Some; repeat split; assumption).
      congruence.
    + discriminate.
    + intros _. do 5 (split; [reflexivity |]).
      intros dt transform ss perfNow. apply render_uninitialized. reflexivity.
Qed.

(** ** The further properties at concrete inputs *)

Lemma norm_turned : norm (rotation turnedTransform) = 1.
Proof.
  unfold norm, turnedTransform.
  cbn [rotation Quaternion.x Quaternion.y Quaternion.z Quaternion.w].
  replace (0 * 0 + 1 * 1 + 0 * 0 + 0 * 0) with 1 by ring. apply sqrt_1.
Qed.

Lemma updates_angular_decay_witness :
  exists s : PhysicsEngine * Transform,
    updates flightCalls (physicsEngine engineInFlight) spawnTransform !! 1%nat
    = Some s /\
    angularVelocity s.1
    = damped (0.95 ^ 2) (angularVelocity (physicsEngine engineInFlight)).
Proof.
  eexists. split; [reflexivity |].
  apply (updates_angular_decay flightCalls (physicsEngine engineInFlight)
           spawnTransform 1 _ eq_refl).
Defined.

Lemma coasting_witness :
  truthy (prop (lastControlInput PhysicsEngine_new) "thrust") = false /\
  Vector3.x (velocity (updatePropulsion 0.016 (mkPropulsion 0.5 0.3 0.7)
                         turnedTransform 1000 PhysicsEngine_new))
  = Vector3.x (velocity PhysicsEngine_new).
Proof.
  split; [reflexivity |].
  apply (coasting 0.016 (mkPropulsion 0.5 0.3 0.7) turnedTransform 1000
           PhysicsEngine_new eq_refl).
Defined.

Lemma flightCalls_in_range : Forall (callInRange 0.02) flightCalls.
Proof.
  unfold flightCalls, callInRange.
  repeat constructor; cbn; lra.
Qed.

Lemma velocity_bounded_witness :
  norm (rotation spawnTransform) = 1 /\
  thrustInRange engineAtRest /\
  Forall (callInRange 0.02) flightCalls /\
  within (49 * (9.81 + 42.5) * 0.02) (velocity engineAtRest) /\
  Forall (fun s => within (49 * (9.81 + 42.5) * 0.02) (velocity s.1))
         (updates flightCalls engineAtRest spawnTransform).
Proof.
  assert (Ht : thrustInRange engineAtRest).
  { unfold thrustInRange. change (0 <= 1.0 <= 1). lra. }
  assert (Hw : within (49 * (9.81 + 42.5) * 0.02) (velocity engineAtRest)).
  { unfold within. cbn. rewrite Rabs_R0. lra. }
  split; [exact norm_spawn |]. split; [exact Ht |].
  split; [exact flightCalls_in_range |]. split; [exact Hw |].
  apply (velocity_bounded 0.02 flightCalls engineAtRest spawnTransform
           norm_spawn Ht flightCalls_in_range Hw).
Defined.


Lemma getMissionById_spec_witness :
  In (Mission.mk "lunar-survey-01" "Lunar Anomaly Survey" deep_space 3
        "Investigate quantum signatures detected on lunar surface."
        ["Navigate to coordinates"; "Deploy sensor probes"; "Analyze quantum data"]
        "lunar-surface" 600) missions /\
  getMissionById "lunar-survey-01"
  = Some (Mission.mk "lunar-survey-01" "Lunar Anomaly Survey" deep_space 3
            "Investigate quantum signatures detected on lunar surface."
            ["Navigate to coordinates"; "Deploy sensor probes"; "Analyze quantum data"]
            "lunar-surface" 600).
Proof.
  assert (H : In (Mission.mk "lunar-survey-01" "Lunar Anomaly Survey" deep_space 3
        "Investigate quantum signatures detected on lunar surface."
        ["Navigate to coordinates"; "Deploy sensor probes"; "Analyze quantum data"]
        "lunar-surface" 600) missions) by (right; left; reflexivity).
  split; [exact H |].
  exact (proj2 (proj2 (getMissionById_spec "lunar-survey-01" _)) H).
Defined.

Lemma startMission_again_witness :
  getMissionById "no-such-mission" = None /\
  startMission "no-such-mission" (startMission "no-such-mission" engineInFlight)
  = startMission "no-such-mission" engineInFlight.
Proof.
  split; [reflexivity |].
  apply (startMission_again "no-such-mission" engineInFlight). reflexivity.
Defined.

Lemma handleKeyInput_other_witness :
  toLowerCase "Escape" <> "w"%string /\
  handleKeyInput "Escape" true engineInFlight = engineInFlight.
Proof.
  split; [discriminate |].
  apply (handleKeyInput_other "Escape" true engineInFlight); discriminate.
Defined.

Lemma handleKeyInput_thrust_stays_witness :
  In (toLowerCase "W") ["w"; "s"; "a"; "d"]%string /\
  prop (lastControlInput (physicsEngine (handleKeyInput "W" false engineInFlight)))
    "thrust" = number 0.8 /\
  angularVelocity (physicsEngine (handleKeyInput "W" false engineInFlight))
  = angularVelocity (physicsEngine engineInFlight).
Proof.
  assert (H : In (toLowerCase "W") ["w"; "s"; "a"; "d"]%string)
    by (left; reflexivity).
  split; [exact H |].
  pose proof (handleKeyInput_thrust_stays "W" false engineInFlight H)
    as (Ht & _ & _ & _ & Ha).
  split; [exact Ht | exact (Ha eq_refl)].
Defined.

Lemma handleTouchInput_single_witness :
  0 < 800 /\ 0 < 600 /\ 0 <= 400 <= 800 /\ 0 <= 300 <= 600 /\
  angularVelocity
    (physicsEngine (handleTouchInput 800 600 "move" [mkTouch 0 400 300] engineInFlight))
  = angularVelocity (physicsEngine engineInFlight).
Proof.
  assert (H1 : 0 < 800) by lra. assert (H2 : 0 < 600) by lra.
  assert (H3 : 0 <= 400 <= 800) by lra. assert (H4 : 0 <= 300 <= 600) by lra.
  repeat (split; [assumption |]).
  pose proof (handleTouchInput_single 800 600 "move" (mkTouch 0 400 300)
                engineInFlight H1 H2 H3 H4) as (_ & _ & _ & _ & _ & Hc).
  apply Hc; cbn; lra.
Defined.

Lemma handleTouchInput_ignored_witness :
  length (@nil Touch) <> 1%nat /\
  handleTouchInput 800 600 "end" [] engineInFlight = engineInFlight.
Proof.
  split; [discriminate |].
  apply (handleTouchInput_ignored 800 600 "end" [] engineInFlight). discriminate.
Defined.

Lemma handleKeyDown_repeat_witness :
  isAscii "KeyW" = true /\
  (("KeyW" : string) ∉ pressedKeys wiredInputManager) /\
  hasOnKey wiredInputManager = true /\
  (handleKeyDown "KeyW" wiredInputManager).2 = [onKey (mappedKey "KeyW") true] /\
  mappedKey "KeyW" = str "w".
Proof.
  assert (H : ("KeyW" : string) ∉ pressedKeys wiredInputManager)
    by apply not_elem_of_empty.
  split; [reflexivity |]. split; [exact H |]. split; [reflexivity |].
  pose proof (proj2 (proj2 (handleKeyDown_repeat "KeyW" wiredInputManager))
                eq_refl H eq_refl) as (Hcalls & Hown & _).
  split; [exact Hcalls | apply Hown; reflexivity].
Defined.

Lemma handleKey_round_trip_witness :
  isAscii "KeyD" = true /\
  (("KeyD" : string) ∉ pressedKeys wiredInputManager) /\
  (handleKeyUp "KeyD" (handleKeyDown "KeyD" wiredInputManager).1).1
  = wiredInputManager.
Proof.
  assert (H : ("KeyD" : string) ∉ pressedKeys wiredInputManager)
    by apply not_elem_of_empty.
  split; [reflexivity |]. split; [exact H |].
  apply (handleKey_round_trip "KeyD" wiredInputManager eq_refl H).
Defined.

Lemma toString_inherited : ("toString" : string) ∈ objectPrototypeNames.
Proof. apply (bool_decide_unpack _). vm_compute. exact I. Qed.

Lemma key_hold_steers_once_witness :
  isAscii "toString" = true /\
  hasOnKey wiredInputManager = true /\
  (("toString" : string) ∉ pressedKeys wiredInputManager) /\
  (Nat.iter 3
     (fun s => dispatch 800 600 (handleKeyDown "toString" s.1) s.2)
     (wiredInputManager, engineInFlight)).2
  = engineInFlight.
Proof.
  assert (H : ("toString" : string) ∉ pressedKeys wiredInputManager)
    by apply not_elem_of_empty.
  split; [reflexivity |]. split; [reflexivity |]. split; [exact H |].
  apply (key_hold_steers_once 800 600 "toString" wiredInputManager engineInFlight 2
           eq_refl eq_refl H).
  exact toString_inherited.
Defined.

Lemma activeTouches_follow_witness :
  hasOnTouch wiredInputManager = true /\
  (handleTouchStart [mkTouch 7 10 20] wiredInputManager).2
  = [onTouch "start"
       (mapValues (activeTouches (handleTouchStart [mkTouch 7 10 20]
                                    wiredInputManager).1))].
Proof.
  split; [reflexivity |].
  exact (proj2 (proj2 (proj2 (proj2
           (activeTouches_follow [mkTouch 7 10 20] wiredInputManager 7)))) eq_refl).
Defined.

Lemma mouse_steering_witness :
  hasOnTouch wiredInputManager = true /\
  calls 800 600 (handleMouseUp (handleMouseDown 400 300 wiredInputManager).1).2
    engineInFlight
  = engineInFlight.
Proof.
  split; [reflexivity |].
  apply (mouse_steering 800 600 400 300 0 0 wiredInputManager engineInFlight eq_refl).
Defined.

Lemma second_finger_witness :
  activeTouches wiredInputManager = [] /\
  hasOnTouch wiredInputManager = true /\
  identifier (mkTouch 1 100 100) <> identifier (mkTouch 2 500 400) /\
  calls 800 600
    (handleTouchStart [mkTouch 2 500 400]
       (handleTouchStart [mkTouch 1 100 100] wiredInputManager).1).2
    engineInFlight
  = engineInFlight.
Proof.
  assert (H : identifier (mkTouch 1 100 100) <> identifier (mkTouch 2 500 400))
    by discriminate.
  split; [reflexivity |]. split; [reflexivity |]. split; [exact H |].
  apply (second_finger 800 600 (mkTouch 1 100 100) (mkTouch 2 500 400)
           wiredInputManager engineInFlight eq_refl eq_refl H).
Defined.

Lemma frame_guard_witness :
  isRunning GameEngine_new = false /\
  GameEngine_render 16 1000 16 GameEngine_new = GameEngine_new.
Proof.
  split; [reflexivity |].
  apply (frame_guard 16 1000 16 GameEngine_new (or_introl eq_refl)).
Defined.

Lemma pause_resume_time_witness :
  gl_context engineInFlight = Some (initialContext 800 600) /\
  renderEngine engineInFlight = Some initializedRenderEngine /\
  deltaTime (GameEngine_render 5016 6000 5016 (resume 5000 (pause engineInFlight)))
  = (5016 - 5000) / 1000.
Proof.
  split; [reflexivity |]. split; [reflexivity |].
  apply (pause_resume_time 64 5000 5016 6000 5016 engineInFlight
           (initialContext 800 600) initializedRenderEngine eq_refl eq_refl).
Defined.

Lemma frame_steps_and_draws_witness :
  isRunning engineInFlight = true /\
  gl_context engineInFlight = Some (initialContext 800 600) /\
  renderEngine engineInFlight = Some initializedRenderEngine /\
  lastTime (GameEngine_render 32 1000 32 engineInFlight) = 32 /\
  (glDrawn <$> gl_context (GameEngine_render 32 1000 32 engineInFlight))
  = Some [mkDrawCall 3 0 true (SRC_ALPHA, ONE_MINUS_SRC_ALPHA)].
Proof.
  split; [reflexivity |]. split; [reflexivity |]. split; [reflexivity |].
  pose proof (frame_steps_and_draws 32 1000 32 engineInFlight
                (initialContext 800 600) initializedRenderEngine
                eq_refl eq_refl eq_refl) as (_ & Ht & Hd & _).
  split; [exact Ht | exact Hd].
Defined.

Lemma session_in_range : Forall eventInRange session.
Proof. unfold session. repeat constructor; cbn; lra. Qed.

Lemma engine_invariants_witness :
  Forall eventInRange session /\
  nearUnit (rotation (craftTransform engineInFlight)) /\
  nearUnit (rotation (craftTransform (handleEvents session engineInFlight))) /\
  scale (craftTransform (handleEvents session engineInFlight)) = Vector3.mk 1 1 1.
Proof.
  split; [exact session_in_range |].
  split; [exact (unit_nearUnit _ norm_turned) |].
  pose proof (engine_invariants session engineInFlight session_in_range
                (unit_nearUnit _ norm_turned)) as (Hn & Hs & _).
  split; [exact Hn | exact Hs].
Defined.

Lemma render_guard_witness :
  length (viewMatrix RenderEngine_new) = 16%nat /\
  shaderProgram RenderEngine_new = None /\
  render 0.016 spawnTransform (systemStates engineInFlight) 16 RenderEngine_new
    (initialContext 800 600)
  = (RenderEngine_new, initialContext 800 600).
Proof.
  split; [reflexivity |]. split; [reflexivity |].
  apply (render_guard 0.016 spawnTransform (systemStates engineInFlight) 16
           RenderEngine_new (initialContext 800 600) eq_refl). reflexivity.
Defined.

Lemma locations_distinct : NoDup [0; 1; 2; 3; 4; 5; 6]%nat.
Proof. change (NoDup (seq 0 7)). apply NoDup_seq. Qed.

Lemma render_uniforms_witness :
  shaderProgram initializedRenderEngine = Some 1%nat /\
  length (viewMatrix initializedRenderEngine) = 16%nat /\
  uniformLocation initializedRenderEngine "uCloakingActive" = Some 4%nat /\
  NoDup [0; 1; 2; 3; 4; 5; 6]%nat /\
  glUniforms (render 0.016 spawnTransform (systemStates engineInFlight) 16
                initializedRenderEngine (initialContext 800 600)).2 !! 4%nat
  = Some (Uniform1i 1).
Proof.
  split; [reflexivity |]. split; [reflexivity |]. split; [reflexivity |].
  split; [exact locations_distinct |].
  apply (render_uniforms 0.016 spawnTransform (systemStates engineInFlight) 16
           initializedRenderEngine (initialContext 800 600) 1%nat
           0%nat 1%nat 2%nat 3%nat 4%nat 5%nat 6%nat
           eq_refl eq_refl eq_refl eq_refl eq_refl eq_refl eq_refl eq_refl eq_refl
           locations_distinct).
Defined.

Lemma vertex_clip_position_witness :
  exists depth : R,
    vertexShader identityMatrix cameraMatrix (perspective (800 / 600))
      (0, 5 * tan (PI / 8), 0)
    = (tan (PI * 0.5 - 0.5 * (PI / 4)) / (800 / 600) * 0,
       tan (PI * 0.5 - 0.5 * (PI / 4)) * (5 * tan (PI / 8)), depth, 5 - 0) /\
    tan (PI * 0.5 - 0.5 * (PI / 4)) * (5 * tan (PI / 8)) = 5 - 0.
Proof.
  destruct (vertex_clip_position (800 / 600) 0 (5 * tan (PI / 8)) 0)
    as (depth & Hpos & _ & Htop).
  exists depth. split; [exact Hpos |].
  apply Htop. ring.
Defined.

Lemma cloak_alpha_witness :
  shaderProgram initializedRenderEngine = Some 1%nat /\
  0 <= Cloaking.integrity (cloaking (systemStates engineInFlight)) <= 1 /\
  0 <= 0.2 <= 0.9 /\ 0.9 <= 1 /\
  fragmentAlpha true 0.2 <= fragmentAlpha true 0.9.
Proof.
  assert (H1 : 0 <= Cloaking.integrity (cloaking (systemStates engineInFlight)) <= 1)
    by (cbn; lra).
  assert (H2 : 0 <= 0.2 <= 0.9) by lra. assert (H3 : 0.9 <= 1) by lra.
  split; [reflexivity |]. split; [exact H1 |]. split; [exact H2 |].
  split; [exact H3 |].
  apply (cloak_alpha 0.016 spawnTransform (systemStates engineInFlight) 16
           initializedRenderEngine (initialContext 800 600) 1%nat 0.2 0.9
           eq_refl H1 H2 H3).
Defined.

Lemma initialize_outcome_witness :
  length (projectionMatrix RenderEngine_new) = 16%nat /\
  (initialize workingDriver RenderEngine_new (initialContext 800 600)).1.1 = None /\
  shaderProgram (initialize workingDriver RenderEngine_new (initialContext 800 600)).1.2
  = Some 1%nat.
Proof.
  split; [reflexivity |].
  pose proof (initialize_outcome workingDriver RenderEngine_new
                (initialContext 800 600) eq_refl) as H.
  destruct (initialize workingDriver RenderEngine_new (initialContext 800 600))
    as [[error this'] g'].
  destruct H as (Hiff & Hok & _). cbn [fst snd].
  assert (He : error = None).
  { apply Hiff. cbn. repeat split; eauto. }
  split; [exact He |]. apply (Hok He).
Defined.

(** ** Thrust from rest at concrete inputs *)

Lemma coilResonance_0 : coilResonance 0 = 0.9.
Proof. unfold coilResonance. rewrite !Rmult_0_l, sin_0. lra. Qed.

Lemma coilResonance_trough : coilResonance troughTime = 0.8.
Proof.
  unfold coilResonance, troughTime, MAGNETIC_FLUX_CONSTANT.
  replace (3 * (PI / 2) / (0.001 * 432.7) * 0.001 * 432.7) with (3 * (PI / 2))
    by (field; lra).
  rewrite sin_3PI2. lra.
Qed.

Lemma engineAtRest_thrust : prop (lastControlInput engineAtRest) "thrust" = number 1.0.
Proof. reflexivity. Qed.

(** C2 fails as stated: in the spawn pose, from rest, at full thrust,
    plasma rate and anti-gravity, the second that starts at clock value 0
    leaves a vertical velocity of -0.981, a tenth of [g], and the one at
    the trough of the coil resonance -1.962, a fifth of [g]: gravity is
    not cancelled. *)
Lemma gravity_not_cancelled :
  Vector3.y (velocity (updatePropulsion 1.0 (propulsion fullPower) spawnTransform
                         0 engineAtRest)) = -0.981 /\
  Vector3.y (velocity (updatePropulsion 1.0 (propulsion fullPower) spawnTransform
                         troughTime engineAtRest)) = -1.962 /\
  -1.962 = - (9.81 / 5).
Proof.
  rewrite !(thrust_from_rest_velocity fullPower spawnTransform _ engineAtRest
              eq_refl engineAtRest_thrust eq_refl eq_refl).
  rewrite (getForwardVector_identity spawnTransform eq_refl).
  cbn [Vector3.x Vector3.y Vector3.z].
  rewrite coilResonance_0, coilResonance_trough.
  repeat split; lra.
Qed.

Lemma thrust_from_rest_witness :
  velocity engineAtRest = Vector3.mk 0 0 0 /\
  prop (lastControlInput engineAtRest) "thrust" = number 1.0 /\
  plasmaRate (propulsion fullPower) = 1.0 /\
  antiGravity (propulsion fullPower) = 1.0 /\
  norm (rotation turnedTransform) = 1 /\
  Vector3.z (velocity (updatePropulsion 1.0 (propulsion fullPower) turnedTransform
                         0 engineAtRest))
  = - (1 - 2 * (0 * 0 + 1 * 1)) * 42.5.
Proof.
  do 4 (split; [reflexivity |]). split; [exact norm_turned |].
  apply (thrust_from_rest fullPower turnedTransform 0 engineAtRest
           eq_refl eq_refl eq_refl eq_refl norm_turned).
Defined.
